(** * fetch_data.py: the streaming extractor and the fetch orchestrator

    A shallow embedding of [src/fetch_data.py].

    - [SimpleHTMLParser] is a record of the instance attributes set in
      [__init__]; the three overridden callbacks [handle_starttag],
      [handle_endtag] and [handle_data] are functions on that record.
    - [HTMLParser.feed] belongs to Python's standard library.  What the
      embedding keeps of it is the sequence of callbacks it makes, an
      [event] list, and the exception it may raise after them.  [handle_startendtag] is not overridden, so a
      self-closing tag is a [StartTag] followed by an [EndTag]; comments,
      declarations and processing instructions reach no overridden
      callback and are no events at all.
    - A Python [str] is a [string] whose characters are the code points
      below 256; [isspace], [isdigit] and [lower] follow Python's tables on
      that range.
    - [scrape_website] and the [__main__] block run in a small state and
      exception monad over the snapshot file, the clock and the log. *)

From Stdlib Require Import String Ascii ZArith.
From stdpp Require Import base option list strings.

Local Open Scope string_scope.

(** ** Python [str] methods used by the script *)

Module PyStr.

Definition between (lo hi n : nat) : bool := Nat.leb lo n && Nat.leb n hi.

(** [str.isspace] on one character: TAB..CR, FS..US, SPACE, NEL, NBSP. *)
Definition isspace (c : ascii) : bool :=
  let n := nat_of_ascii c in
  between 9 13 n || between 28 32 n || Nat.eqb n 133 || Nat.eqb n 160.

(** [str.isdigit] on one character: 0..9 and the superscripts 2, 3, 1. *)
Definition isdigit (c : ascii) : bool :=
  let n := nat_of_ascii c in
  between 48 57 n || Nat.eqb n 178 || Nat.eqb n 179 || Nat.eqb n 185.

Definition lower_char (c : ascii) : ascii :=
  let n := nat_of_ascii c in
  if between 65 90 n || between 192 214 n || between 216 222 n
  then ascii_of_nat (n + 32) else c.

(** [str.lower] *)
Fixpoint lower (s : string) : string :=
  match s with
  | EmptyString => EmptyString
  | String c r => String (lower_char c) (lower r)
  end.

Fixpoint lstrip (s : string) : string :=
  match s with
  | EmptyString => EmptyString
  | String c r => if isspace c then lstrip r else s
  end.

Fixpoint rstrip (s : string) : string :=
  match s with
  | EmptyString => EmptyString
  | String c r =>
      match rstrip r with
      | EmptyString => if isspace c then EmptyString else String c EmptyString
      | r' => String c r'
      end
  end.

(** [str.strip()] with no argument *)
Definition strip (s : string) : string := rstrip (lstrip s).

(** Truth value of a [str]: the empty string is false. *)
Definition truthy (s : string) : bool :=
  match s with EmptyString => false | String _ _ => true end.

(** Truth value of a value that is a [str] or [None]. *)
Definition truthy_opt (o : option string) : bool :=
  match o with Some s => truthy s | None => false end.

End PyStr.

(** ** The parser object *)

(** One attribute as [HTMLParser] hands it over: the name, and the value
    or [None] for an attribute written without [=]. *)
Definition attr : Type := string * option string.

(** The dict [{'text': ..., 'href': ...}] appended to [self.links]. *)
Record link := Link { text : string; href : string }.

Record SimpleHTMLParser := Parser {
  title : string;
  in_title : bool;
  headings : list string;
  in_heading : bool;
  current_heading : string;
  links : list link;
  paragraphs : list string;
  in_paragraph : bool;
  current_paragraph : string;
  meta_description : option string
}.

(** [SimpleHTMLParser.__init__] *)
Definition init : SimpleHTMLParser :=
  {| title := ""; in_title := false;
     headings := []; in_heading := false; current_heading := "";
     links := [];
     paragraphs := []; in_paragraph := false; current_paragraph := "";
     meta_description := None |}.

(** Attribute assignments [self.x = v]. *)
Definition set_title v (p : SimpleHTMLParser) :=
  Parser v (in_title p) (headings p) (in_heading p) (current_heading p)
    (links p) (paragraphs p) (in_paragraph p) (current_paragraph p)
    (meta_description p).
Definition set_in_title v (p : SimpleHTMLParser) :=
  Parser (title p) v (headings p) (in_heading p) (current_heading p)
    (links p) (paragraphs p) (in_paragraph p) (current_paragraph p)
    (meta_description p).
Definition set_headings v (p : SimpleHTMLParser) :=
  Parser (title p) (in_title p) v (in_heading p) (current_heading p)
    (links p) (paragraphs p) (in_paragraph p) (current_paragraph p)
    (meta_description p).
Definition set_in_heading v (p : SimpleHTMLParser) :=
  Parser (title p) (in_title p) (headings p) v (current_heading p)
    (links p) (paragraphs p) (in_paragraph p) (current_paragraph p)
    (meta_description p).
Definition set_current_heading v (p : SimpleHTMLParser) :=
  Parser (title p) (in_title p) (headings p) (in_heading p) v
    (links p) (paragraphs p) (in_paragraph p) (current_paragraph p)
    (meta_description p).
Definition set_links v (p : SimpleHTMLParser) :=
  Parser (title p) (in_title p) (headings p) (in_heading p) (current_heading p)
    v (paragraphs p) (in_paragraph p) (current_paragraph p)
    (meta_description p).
Definition set_paragraphs v (p : SimpleHTMLParser) :=
  Parser (title p) (in_title p) (headings p) (in_heading p) (current_heading p)
    (links p) v (in_paragraph p) (current_paragraph p)
    (meta_description p).
Definition set_in_paragraph v (p : SimpleHTMLParser) :=
  Parser (title p) (in_title p) (headings p) (in_heading p) (current_heading p)
    (links p) (paragraphs p) v (current_paragraph p)
    (meta_description p).
Definition set_current_paragraph v (p : SimpleHTMLParser) :=
  Parser (title p) (in_title p) (headings p) (in_heading p) (current_heading p)
    (links p) (paragraphs p) (in_paragraph p) v
    (meta_description p).
Definition set_meta_description v (p : SimpleHTMLParser) :=
  Parser (title p) (in_title p) (headings p) (in_heading p) (current_heading p)
    (links p) (paragraphs p) (in_paragraph p) (current_paragraph p)
    v.

(** [tag.startswith('h') and len(tag) == 2 and tag[1].isdigit()] *)
Definition is_heading_tag (tag : string) : bool :=
  String.prefix "h" tag
  && Nat.eqb (String.length tag) 2
  && match String.get 1 tag with
     | Some c => PyStr.isdigit c
     | None => false
     end.

(** [next((attr[1] for attr in attrs if attr[0] == 'href'), None)]: the
    value of the first attribute called [href]; [None] when there is no
    such attribute, and also when the first one has no value. *)
Fixpoint first_href (attrs : list attr) : option string :=
  match attrs with
  | [] => None
  | (name, value) :: rest =>
      if String.eqb name "href" then value else first_href rest
  end.

(** The body of the [for attr in attrs] loop of the [meta] branch, on the
    pair of locals [(is_description, content)]. *)
Definition meta_attr (acc : bool * option string) (a : attr)
  : bool * option string :=
  let '(is_description, content) := acc in
  let '(name, value) := a in
  match String.eqb name "name", value with
  | true, Some v =>
      if String.eqb (PyStr.lower v) "description"
      then (true, content) else acc
  | _, _ =>
      if String.eqb name "content" then (is_description, value) else acc
  end.

Definition meta_scan (attrs : list attr) : bool * option string :=
  foldl meta_attr (false, None) attrs.

Definition handle_starttag (tag : string) (attrs : list attr)
    (self : SimpleHTMLParser) : SimpleHTMLParser :=
  if String.eqb tag "title" then
    set_in_title true self
  else if is_heading_tag tag then
    set_current_heading "" (set_in_heading true self)
  else if String.eqb tag "a" then
    match first_href attrs with
    | Some h =>
        if PyStr.truthy h
        then set_links (links self ++ [ {| text := ""; href := h |} ]) self
        else self
    | None => self
    end
  else if String.eqb tag "p" then
    set_current_paragraph "" (set_in_paragraph true self)
  else if String.eqb tag "meta" then
    let '(is_description, content) := meta_scan attrs in
    if is_description && PyStr.truthy_opt content
    then set_meta_description content self
    else self
  else self.

Definition handle_endtag (tag : string) (self : SimpleHTMLParser)
  : SimpleHTMLParser :=
  if String.eqb tag "title" then
    set_in_title false self
  else if is_heading_tag tag then
    let self := set_in_heading false self in
    if PyStr.truthy (PyStr.strip (current_heading self))
    then set_headings (headings self ++ [PyStr.strip (current_heading self)]) self
    else self
  else if String.eqb tag "p" then
    let self := set_in_paragraph false self in
    if PyStr.truthy (PyStr.strip (current_paragraph self))
    then set_paragraphs
           (paragraphs self ++ [PyStr.strip (current_paragraph self)]) self
    else self
  else self.

(** [self.links[-1]['text'] = v]: the dict at the last index is changed
    in place. *)
Definition set_last_text (v : string) (l : list link) : list link :=
  alter (fun e => {| text := v; href := href e |}) (pred (length l)) l.

Definition handle_data (data : string) (self : SimpleHTMLParser)
  : SimpleHTMLParser :=
  let self :=
    if in_title self then set_title (title self ++ data) self
    else if in_heading self then
      set_current_heading (current_heading self ++ data) self
    else if in_paragraph self then
      set_current_paragraph (current_paragraph self ++ data) self
    else self in
  match last (links self) with
  | Some e =>
      if negb (PyStr.truthy (text e))
      then set_links (set_last_text (PyStr.strip data) (links self)) self
      else self
  | None => self
  end.

(** ** The callbacks [feed] makes *)

Inductive event :=
| StartTag (tag : string) (attrs : list attr)
| EndTag (tag : string)
| Data (data : string).

Definition dispatch (self : SimpleHTMLParser) (e : event) : SimpleHTMLParser :=
  match e with
  | StartTag tag attrs => handle_starttag tag attrs self
  | EndTag tag => handle_endtag tag self
  | Data data => handle_data data self
  end.

(** The parser after [feed] has made the callbacks [evs] on it. *)
Definition feed (self : SimpleHTMLParser) (evs : list event)
  : SimpleHTMLParser :=
  foldl dispatch self evs.

(** ** Final assembly *)

(** The dict [data] built by [scrape_website]. *)
Record page_data := PageData {
  data_title : string;
  data_url : string;
  data_heading : option string;
  data_metaDescription : option string;
  data_links : list link;
  data_paragraphs : list string;
  data_timestamp : string
}.

Definition make_data (parser : SimpleHTMLParser) (url timestamp : string)
  : page_data :=
  {| data_title := title parser;
     data_url := url;
     data_heading := head (headings parser);
     data_metaDescription := meta_description parser;
     data_links := take 20 (links parser);
     data_paragraphs := take 10 (paragraphs parser);
     data_timestamp := timestamp |}.

(** The dict under the key ['error']. *)
Record error_info := ErrorInfo { message : string; type_name : string }.

(** What [scrape_website] returns and dumps: [scraped_data] or
    [error_data]. *)
Inductive result :=
| ScrapedData (source_url scraped_at : string) (data : page_data)
| ErrorData (source_url scraped_at : string) (error : error_info).

(** ** The orchestrator's surroundings *)

(** An exception object, as far as the script looks at it: the name of
    its class, its [str()], and whether it is an instance of [URLError]
    (of which [HTTPError] is a subclass).  Every [exn] is an instance of
    [Exception]. *)
Record exn := Exn {
  exn_type : string;
  exn_str : string;
  is_URLError : bool
}.

(** What a statement can raise: an [Exception], or the [SystemExit] of
    [sys.exit], which [except Exception] does not catch. *)
Inductive raised :=
| Exc (e : exn)
| SystemExit (code : Z).

(** Everything outside the script that a run depends on. *)
Record world := World {
  (** [Request(url, ...)], [urlopen(..., timeout=30)], [read()] and
      [decode('utf-8')]: the decoded body, or the exception raised. *)
  urlopen_read : string -> exn + string;
  (** the callbacks [HTMLParser.feed] makes on a text *)
  feed_callbacks : string -> list event;
  (** [datetime.now().isoformat()] at the n-th reading of the clock *)
  isoformat_now : nat -> string;
  (** [with open('scraped_data.json', 'w', ...) as f: json.dump(..., f, ...)]
      at the n-th attempt: the exception the statement raises, if any,
      be it in [open], in [json.dump] or on closing the file *)
  open_w : nat -> option exn;
  (** the exception [HTMLParser.feed] itself raises on a text, if any,
      after the callbacks it has made (the tokenizer asserts on some
      malformed declarations) *)
  feed_raises : string -> option exn;
  (** whether the n-th attempt, when it raises, had got past [open]:
      [open(..., 'w')] empties the file, so what is left is a dump cut
      short *)
  opened : nat -> bool
}.

Inductive level := INFO | ERROR.

(** What a run changes: the content of [scraped_data.json] (the object
    last dumped into it in full; [None] while the file holds no complete
    dump, because it does not exist or because a dump into it was cut
    short), the log, and how often the clock and the file have been
    used. *)
Record os := OS {
  scraped_data_json : option result;
  log : list (level * string);
  clock_reads : nat;
  open_attempts : nat
}.

Definition M (A : Type) : Type := os -> (raised + A) * os.

Definition ret {A} (a : A) : M A := fun s => (inr a, s).

Definition bind {A B} (c : M A) (k : A -> M B) : M B :=
  fun s =>
    match c s with
    | (inr a, s') => k a s'
    | (inl r, s') => (inl r, s')
    end.

Definition raise {A} (r : raised) : M A := fun s => (inl r, s).

(** [try: body / except Exception as e: handler e] *)
Definition try_except {A} (body : M A) (handler : exn -> M A) : M A :=
  fun s =>
    match body s with
    | (inl (Exc e), s') => handler e s'
    | other => other
    end.

Notation "x <- c ;; k" := (bind c (fun x => k))
  (at level 100, c at next level, right associativity).
Notation "c ;; k" := (bind c (fun _ => k))
  (at level 100, right associativity).

Definition logger (lvl : level) (msg : string) : M unit :=
  fun s => (inr tt, OS (scraped_data_json s) (log s ++ [(lvl, msg)])
                       (clock_reads s) (open_attempts s)).

Definition now (w : world) : M string :=
  fun s => (inr (isoformat_now w (clock_reads s)),
            OS (scraped_data_json s) (log s) (S (clock_reads s))
               (open_attempts s)).

Definition fetch (w : world) (url : string) : M string :=
  match urlopen_read w url with
  | inl e => raise (Exc e)
  | inr html_content => ret html_content
  end.

(** [with open('scraped_data.json', 'w', ...) as f: json.dump(v, f, indent=2)].
    When [open] raises the file is as it was; when it is [json.dump] or
    the closing that raises, [open] has emptied the file already. *)
Definition dump (w : world) (v : result) : M unit :=
  fun s =>
    match open_w w (open_attempts s) with
    | Some e =>
        (inl (Exc e),
         OS (if opened w (open_attempts s) then None else scraped_data_json s)
            (log s) (clock_reads s) (S (open_attempts s)))
    | None =>
        (inr tt, OS (Some v) (log s) (clock_reads s) (S (open_attempts s)))
    end.

(** The body shared, up to the first log line, by the two [except]
    clauses of [scrape_website]. *)
Definition save_error (w : world) (url : string) (e : exn) : M result :=
  scraped_at <- now w ;;
  let error_data :=
    ErrorData url scraped_at
      {| message := exn_str e; type_name := exn_type e |} in
  dump w error_data ;;
  logger ERROR "Error data saved to scraped_data.json" ;;
  ret error_data.

(** [parser = SimpleHTMLParser(); parser.feed(html_content)]: the parser
    after the callbacks, unless [feed] raises. *)
Definition parser_feed (w : world) (html_content : string)
  : M SimpleHTMLParser :=
  match feed_raises w html_content with
  | Some e => raise (Exc e)
  | None => ret (feed init (feed_callbacks w html_content))
  end.

Definition scrape_website (w : world) (url : string) : M result :=
  logger INFO ("Starting to fetch: " ++ url) ;;
  try_except
    (html_content <- fetch w url ;;
     logger INFO "Page fetched successfully, parsing content..." ;;
     parser <- parser_feed w html_content ;;
     timestamp <- now w ;;
     let data := make_data parser url timestamp in
     scraped_at <- now w ;;
     let scraped_data := ScrapedData url scraped_at data in
     dump w scraped_data ;;
     logger INFO "Data saved to scraped_data.json" ;;
     ret scraped_data)
    (fun e =>
       if is_URLError e then
         logger ERROR ("Error fetching URL: " ++ exn_str e) ;;
         save_error w url e
       else
         logger ERROR ("Unexpected error: " ++ exn_str e) ;;
         save_error w url e).

(** The record saved for an exception [e] caught when the clock is read
    for the [n]-th time. *)
Definition error_data (w : world) (url : string) (e : exn) (n : nat)
  : result :=
  ErrorData url (isoformat_now w n)
    {| message := exn_str e; type_name := exn_type e |}.

Definition sys_exit {A} (code : Z) : M A := raise (SystemExit code).

(** [sys.argv[1] if len(sys.argv) > 1 else os.environ.get('SCRAPE_URL')];
    [argv] is [sys.argv] and [environ] is [os.environ.get]. *)
Definition url_to_scrape (argv : list string)
    (environ : string -> option string) : option string :=
  if Nat.ltb 1 (length argv) then argv !! 1 else environ "SCRAPE_URL".

(** The [if __name__ == "__main__":] block. *)
Definition main (w : world) (argv : list string)
    (environ : string -> option string) : M unit :=
  let no_url : M unit :=
    logger ERROR "No URL specified. Use python fetch_data.py [URL] or set the SCRAPE_URL environment variable." ;;
    sys_exit 1 in
  match url_to_scrape argv environ with
  | Some url =>
      if PyStr.truthy url then
        try_except
          (scrape_website w url ;;
           logger INFO "Fetching completed successfully" ;;
           sys_exit 0)
          (fun e =>
             logger ERROR ("Fetching failed: " ++ exn_str e) ;;
             sys_exit 1)
      else no_url
  | None => no_url
  end.

(** The status the interpreter exits with: the code of a [SystemExit], 1
    after an uncaught exception, 0 when the script runs off its end. *)
Definition exit_status (r : raised + unit) : Z :=
  match r with
  | inl (SystemExit code) => code
  | inl (Exc _) => 1%Z
  | inr _ => 0%Z
  end.

(** A fresh process: nothing logged, no clock read, no file opened yet;
    [file] is the complete dump [scraped_data.json] holds beforehand, if
    any. *)
Definition boot (file : option result) : os :=
  OS file [] 0 0.

(** ** Documents, as the claims speak of them *)

(** The tags the three text flags react to. *)
Definition structural (tag : string) : bool :=
  String.eqb tag "title" || is_heading_tag tag || String.eqb tag "p".

(** A callback that opens or closes none of them. *)
Definition inline (e : event) : bool :=
  match e with
  | StartTag tag _ | EndTag tag => negb (structural tag)
  | Data _ => true
  end.

Definition join (l : list string) : string := foldr String.append "" l.

(** The character data among the callbacks [body], concatenated. *)
Definition text_of (body : list event) : string :=
  join (omap (fun e => match e with Data d => Some d | _ => None end) body).

(** A document in which the elements the extractor follows are closed and
    do not contain one another: a sequence of [<title>], heading and
    [<p>] elements, each around inline callbacks only, between inline
    callbacks ([Loose]: text, anchors, [<meta>], [<div>], ...). *)
Inductive element :=
| TitleEl (attrs : list attr) (body : list event)
| HeadingEl (tag : string) (attrs : list attr) (body : list event)
| ParagraphEl (attrs : list attr) (body : list event)
| Loose (e : event).

Definition document := list element.

Definition callbacks_of (el : element) : list event :=
  match el with
  | TitleEl attrs body => StartTag "title" attrs :: body ++ [EndTag "title"]
  | HeadingEl tag attrs body => StartTag tag attrs :: body ++ [EndTag tag]
  | ParagraphEl attrs body => StartTag "p" attrs :: body ++ [EndTag "p"]
  | Loose e => [e]
  end.

Definition callbacks (doc : document) : list event :=
  flat_map callbacks_of doc.

Definition well_formed_el (el : element) : bool :=
  match el with
  | TitleEl _ body => forallb inline body
  | HeadingEl tag _ body => is_heading_tag tag && forallb inline body
  | ParagraphEl _ body => forallb inline body
  | Loose e => inline e
  end.

Definition well_formed (doc : document) : bool := forallb well_formed_el doc.

(** Between elements no flag is set. *)
Definition idle (s : SimpleHTMLParser) : Prop :=
  in_title s = false ∧ in_heading s = false ∧ in_paragraph s = false.

Definition title_texts (doc : document) : list string :=
  omap (fun el => match el with
                  | TitleEl _ body => Some (text_of body)
                  | _ => None
                  end) doc.

Definition heading_texts (doc : document) : list string :=
  omap (fun el => match el with
                  | HeadingEl _ _ body => Some (text_of body)
                  | _ => None
                  end) doc.

Definition paragraph_texts (doc : document) : list string :=
  omap (fun el => match el with
                  | ParagraphEl _ body => Some (text_of body)
                  | _ => None
                  end) doc.

(** The texts trimmed, those that are empty after trimming left out. *)
Definition trimmed_nonempty (texts : list string) : list string :=
  filter (fun s : string => s ≠ "") (PyStr.strip <$> texts).

(** The text of the heading elements named [h1] to [h9]. *)
Definition h1_h9_texts (doc : document) : list string :=
  omap (fun el => match el with
                  | HeadingEl tag _ body =>
                      if bool_decide (tag ∈ ["h1"; "h2"; "h3"; "h4"; "h5";
                                              "h6"; "h7"; "h8"; "h9"])
                      then Some (text_of body) else None
                  | _ => None
                  end) doc.

(** *** Attributes, as the claims speak of them *)

(** The attribute called [name] on a tag: [None] when the tag has none,
    otherwise the value of the first one ([Some None] when it is written
    without a value). *)
Definition attribute (name : string) (attrs : list attr)
  : option (option string) :=
  snd <$> head (filter (fun a : attr => a.1 = name) attrs).

(** The values of the attributes called [name], in the order written. *)
Definition attributes (name : string) (attrs : list attr)
  : list (option string) :=
  snd <$> filter (fun a : attr => a.1 = name) attrs.

(** Some attribute is called [name] and has the value [description] in
    whatever case. *)
Definition names_description (attrs : list attr) : bool :=
  existsb (fun v => match v with
                    | Some s => bool_decide (PyStr.lower s = "description")
                    | None => false
                    end)
    (attributes "name" attrs).

(** What a [<meta>] tag records as description: the value of its last
    [content] attribute, when the tag names [description] and that value
    is a non-empty string. *)
Definition description_of (e : event) : option string :=
  match e with
  | StartTag tag attrs =>
      if bool_decide (tag = "meta") && names_description attrs
      then match last (attributes "content" attrs) with
           | Some (Some c) => if bool_decide (c = "") then None else Some c
           | _ => None
           end
      else None
  | _ => None
  end.

Definition descriptions (evs : list event) : list string :=
  omap description_of evs.

(** The [href] an [<a>] tag contributes a link for: the value of its
    first [href] attribute, when that is a non-empty string. *)
Definition anchor_href (e : event) : option string :=
  match e with
  | StartTag tag attrs =>
      if bool_decide (tag = "a")
      then match attribute "href" attrs with
           | Some (Some h) => if bool_decide (h = "") then None else Some h
           | _ => None
           end
      else None
  | _ => None
  end.

Definition anchor_hrefs (evs : list event) : list string :=
  omap anchor_href evs.

(** ** Further notions the properties below speak of *)

(** A string as [strip] leaves it: not empty, and unchanged by trimming
    again. *)
Definition trimmed (t : string) : Prop := t ≠ "" ∧ PyStr.strip t = t.

(** A callback that neither appends a link nor offers a text for the
    last one: white space only, or a tag other than an [a] with a usable
    [href]. *)
Definition blank (e : event) : Prop :=
  match e with
  | Data d => PyStr.strip d = ""
  | _ => anchor_href e = None
  end.

(** The [<p>] elements of a page as its opening [p] tags count them (an
    opening [p] tag starts a paragraph, closing the one before if that is
    still open). *)
Definition opens_p (e : event) : bool :=
  match e with StartTag tag _ => String.eqb tag "p" | _ => false end.

Definition p_elements (evs : list event) : nat :=
  length (List.filter opens_p evs).

(** A closing [</p>], and a closing heading tag. *)
Definition closes_p (e : event) : bool :=
  match e with EndTag tag => String.eqb tag "p" | _ => false end.

Definition closes_heading (e : event) : bool :=
  match e with EndTag tag => is_heading_tag tag | _ => false end.

(** The parser [s'] some callbacks after a [<title>] was opened in the
    state [s0], none of them a [</title>]. *)
Definition title_open_since (s0 s' : SimpleHTMLParser) : Prop :=
  in_title s' = true
  ∧ (current_heading s' = current_heading s0 ∨ current_heading s' = "")
  ∧ (current_paragraph s' = current_paragraph s0 ∨ current_paragraph s' = "")
  ∧ (∃ k, headings s' =
          (headings s0 ++ replicate k (PyStr.strip (current_heading s0)))%list
          ∧ (PyStr.strip (current_heading s0) = "" → k = 0))
  ∧ (∃ k, paragraphs s' =
          (paragraphs s0
           ++ replicate k (PyStr.strip (current_paragraph s0)))%list
          ∧ (PyStr.strip (current_paragraph s0) = "" → k = 0)).

(** The tags one of the branches of [handle_starttag] reacts to. *)
Definition start_tag_known (tag : string) : bool :=
  String.eqb tag "title" || is_heading_tag tag || String.eqb tag "a"
  || String.eqb tag "p" || String.eqb tag "meta".

(** ['source_url'] of either record. *)
Definition result_source_url (r : result) : string :=
  match r with
  | ScrapedData source_url _ _ => source_url
  | ErrorData source_url _ _ => source_url
  end.

(** The two [except] clauses, from the state in which the exception is
    caught. *)
Definition handler (w : world) (url : string) (e : exn) : M result :=
  if is_URLError e then
    logger ERROR ("Error fetching URL: " ++ exn_str e) ;;
    save_error w url e
  else
    logger ERROR ("Unexpected error: " ++ exn_str e) ;;
    save_error w url e.

(** ** server.py: reading the snapshot *)

Module Server.

(** An exception as [get_scraped_data] looks at it: its [str()] and
    whether it is a [json.JSONDecodeError]. *)
Record exn := Exn { exn_str : string; is_JSONDecodeError : bool }.

Inductive level := WARNING | ERROR.

(** What the server process depends on; [J] is the type of the objects
    [json.load] returns. *)
Record world (J : Type) := World {
  (** the module constant [SCRAPED_DATA_FILE] *)
  SCRAPED_DATA_FILE : string;
  (** [os.path.exists(SCRAPED_DATA_FILE)] *)
  path_exists : bool;
  (** [with open(SCRAPED_DATA_FILE, 'r', ...) as f: json.load(f)]: the
      object loaded, or the exception [open], [read] or [json.load]
      raises *)
  open_load : exn + J;
  (** [datetime.now().isoformat()] at the n-th reading of the clock *)
  isoformat_now : nat -> string
}.
Arguments World {J}.
Arguments SCRAPED_DATA_FILE {J}.
Arguments path_exists {J}.
Arguments open_load {J}.
Arguments isoformat_now {J}.

Record state := State { log : list (level * string); clock_reads : nat }.

(** What [get_scraped_data] returns: the object loaded from the file, or
    a dict with the keys ["error"], ["message"] and ["timestamp"]. *)
Inductive data (J : Type) :=
| Loaded (v : J)
| ErrorDict (error message timestamp : string).
Arguments Loaded {J}.
Arguments ErrorDict {J}.

Definition M (A : Type) : Type := state -> (exn + A) * state.

Definition ret {A} (a : A) : M A := fun s => (inr a, s).

Definition bind {A B} (c : M A) (k : A -> M B) : M B :=
  fun s =>
    match c s with
    | (inr a, s') => k a s'
    | (inl e, s') => (inl e, s')
    end.

Definition raise {A} (e : exn) : M A := fun s => (inl e, s).

(** [try: body / except Exception as e: handler e] *)
Definition try_except {A} (body : M A) (handler : exn -> M A) : M A :=
  fun s =>
    match body s with
    | (inl e, s') => handler e s'
    | other => other
    end.

Definition logger (lvl : level) (msg : string) : M unit :=
  fun s => (inr tt, State (log s ++ [(lvl, msg)]) (clock_reads s)).

Definition now {J} (w : world J) : M string :=
  fun s => (inr (isoformat_now w (clock_reads s)),
            State (log s) (S (clock_reads s))).

Definition get_scraped_data {J} (w : world J) : M (data J) :=
  try_except
    (if negb (path_exists w) then
       bind (logger WARNING
               ("Scraped data file not found: " ++ SCRAPED_DATA_FILE w))
         (fun _ =>
       bind (now w) (fun timestamp =>
       ret (ErrorDict "No scraped data available"
              "Run the scraper first using 'node scrape.js [URL]'"
              timestamp)))
     else
       match open_load w with
       | inl e => raise e
       | inr v => ret (Loaded v)
       end)
    (fun e =>
       if is_JSONDecodeError e then
         bind (logger ERROR
                 ("Error decoding JSON from scraped data file: " ++ exn_str e))
           (fun _ =>
         bind (now w) (fun timestamp =>
         ret (ErrorDict "Invalid scraped data" (exn_str e) timestamp)))
       else
         bind (logger ERROR
                 ("Unexpected error reading scraped data: " ++ exn_str e))
           (fun _ =>
         bind (now w) (fun timestamp =>
         ret (ErrorDict "Failed to read scraped data" (exn_str e) timestamp)))).

End Server.

(** * Properties *)

(** ** Strings *)

Lemma append_nil_r (s : string) : s ++ "" = s.
Proof.
  induction s as [|c s IH]; [reflexivity|].
  change (String c (s ++ "") = String c s). by rewrite IH.
Qed.

Lemma append_nil_l (s : string) : "" ++ s = s.
Proof. reflexivity. Qed.

Lemma append_assoc (s1 s2 s3 : string) : (s1 ++ s2) ++ s3 = s1 ++ (s2 ++ s3).
Proof.
  induction s1 as [|c s1 IH]; [reflexivity|].
  change (String c ((s1 ++ s2) ++ s3) = String c (s1 ++ (s2 ++ s3))).
  by rewrite IH.
Qed.

Lemma truthy_spec (s : string) : PyStr.truthy s = true ↔ s ≠ "".
Proof. destruct s; naive_solver. Qed.

Lemma truthy_false (s : string) : PyStr.truthy s = false ↔ s = "".
Proof. destruct s; naive_solver. Qed.

Lemma join_app (l1 l2 : list string) : join (l1 ++ l2) = join l1 ++ join l2.
Proof.
  induction l1 as [|x l1 IH]; [reflexivity|].
  change (x ++ join (l1 ++ l2) = (x ++ join l1) ++ join l2).
  by rewrite IH, append_assoc.
Qed.

Lemma text_of_app (b1 b2 : list event) :
  text_of (b1 ++ b2) = text_of b1 ++ text_of b2.
Proof. unfold text_of. by rewrite omap_app, join_app. Qed.

Lemma text_of_data (d : string) : text_of [Data d] = d.
Proof. apply append_nil_r. Qed.

(** ** The callbacks, one at a time *)

Lemma feed_app (s : SimpleHTMLParser) (l1 l2 : list event) :
  feed s (l1 ++ l2) = feed (feed s l1) l2.
Proof. apply foldl_app. Qed.

Lemma feed_cons (s : SimpleHTMLParser) (e : event) (l : list event) :
  feed s (e :: l) = feed (dispatch s e) l.
Proof. reflexivity. Qed.

Lemma prefix_h (c : ascii) (r : string) :
  String.prefix "h" (String c r) = bool_decide (c = "h"%char).
Proof.
  change (String.prefix "h" (String c r))
    with (if ascii_dec "h" c then String.prefix "" r else false).
  destruct (ascii_dec "h" c) as [<-|Hne].
  - by destruct r.
  - by rewrite bool_decide_eq_false_2.
Qed.

Lemma is_heading_tag_spec (tag : string) :
  is_heading_tag tag = true ↔
  ∃ d : ascii, tag = String "h" (String d "") ∧ PyStr.isdigit d = true.
Proof.
  unfold is_heading_tag. split.
  - destruct tag as [|c [|d [|e r]]]; [done| |  |]; rewrite prefix_h.
    + by rewrite andb_false_r.
    + case_bool_decide as Hc; [subst c|done]. intros H. by exists d.
    + by rewrite andb_false_r.
  - intros (d & -> & Hd). rewrite prefix_h.
    rewrite bool_decide_eq_true_2 by done. exact Hd.
Qed.

Lemma heading_tag_not_title (tag : string) :
  is_heading_tag tag = true → String.eqb tag "title" = false.
Proof. intros (d & -> & _)%is_heading_tag_spec. reflexivity. Qed.

(** An inline callback leaves the three flags and the two result lists
    alone, and adds its character data to the buffer the flags select. *)
Lemma dispatch_inline (s : SimpleHTMLParser) (e : event) :
  inline e = true →
  ∃ lk md,
    dispatch s e =
    Parser
      (if in_title s then title s ++ text_of [e] else title s)
      (in_title s) (headings s) (in_heading s)
      (if negb (in_title s) && in_heading s
       then current_heading s ++ text_of [e] else current_heading s)
      lk (paragraphs s) (in_paragraph s)
      (if negb (in_title s) && negb (in_heading s) && in_paragraph s
       then current_paragraph s ++ text_of [e] else current_paragraph s)
      md.
Proof.
  destruct s as [t it hs ih ch lk ps ip cp md].
  destruct e as [tag attrs|tag|d]; simpl; unfold structural.
  - intros [[Ht Hh]%orb_false_elim Hp]%negb_true_iff%orb_false_elim.
    unfold handle_starttag. rewrite Ht, Hh, Hp.
    change (text_of [StartTag tag attrs]) with "". rewrite !append_nil_r.
    destruct it, ih, ip; simpl;
      repeat match goal with
             | |- context [if ?b then _ else _] => destruct b
             | |- context [match ?o with Some _ => _ | None => _ end] =>
                 destruct o
             | |- context [let '(_, _) := ?x in _] => destruct x
             end; simpl; eauto.
  - intros [[Ht Hh]%orb_false_elim Hp]%negb_true_iff%orb_false_elim.
    unfold handle_endtag. rewrite Ht, Hh, Hp.
    change (text_of [EndTag tag]) with "". rewrite !append_nil_r.
    destruct it, ih, ip; simpl; eauto.
  - intros _. rewrite text_of_data. unfold handle_data.
    destruct it, ih, ip; simpl;
      repeat match goal with
             | |- context [match ?o with Some _ => _ | None => _ end] =>
                 destruct o
             | |- context [if ?b then _ else _] => destruct b
             end; simpl; eauto.
Qed.

Lemma feed_inline (body : list event) :
  ∀ s : SimpleHTMLParser,
    forallb inline body = true →
    ∃ lk md,
      feed s body =
      Parser
        (if in_title s then title s ++ text_of body else title s)
        (in_title s) (headings s) (in_heading s)
        (if negb (in_title s) && in_heading s
         then current_heading s ++ text_of body else current_heading s)
        lk (paragraphs s) (in_paragraph s)
        (if negb (in_title s) && negb (in_heading s) && in_paragraph s
         then current_paragraph s ++ text_of body else current_paragraph s)
        md.
Proof.
  induction body as [|e body IH]; intros s Hb.
  - change (text_of []) with "". rewrite !append_nil_r.
    destruct s as [t it hs ih ch lk ps ip cp md]; simpl.
    exists lk, md. by destruct it, ih, ip.
  - apply andb_true_iff in Hb as [He Hb]. rewrite feed_cons.
    destruct (dispatch_inline s e He) as (lk & md & ->).
    match goal with |- context [feed ?s0 body] =>
      destruct (IH s0 Hb) as (lk' & md' & ->) end.
    simpl.
    change (e :: body) with ([e] ++ body)%list. rewrite text_of_app.
    exists lk', md'.
    destruct (in_title s), (in_heading s), (in_paragraph s); simpl;
      by rewrite ?append_assoc.
Qed.

(** ** Whole documents *)

Lemma trimmed_nonempty_app (l1 l2 : list string) :
  trimmed_nonempty (l1 ++ l2) =
  (trimmed_nonempty l1 ++ trimmed_nonempty l2)%list.
Proof. unfold trimmed_nonempty. by rewrite fmap_app, filter_app. Qed.

(** What a closing heading or paragraph tag appends. *)
Lemma trimmed_nonempty_one (t : string) :
  trimmed_nonempty [t] =
  if PyStr.truthy (PyStr.strip t) then [PyStr.strip t] else [].
Proof.
  unfold trimmed_nonempty. simpl.
  destruct (PyStr.truthy (PyStr.strip t)) eqn:E.
  - apply truthy_spec in E. by rewrite filter_cons_True.
  - apply truthy_false in E. rewrite filter_cons_False; [done|]. by intros [].
Qed.

Lemma handle_endtag_p (s : SimpleHTMLParser) :
  handle_endtag "p" s =
  if PyStr.truthy (PyStr.strip (current_paragraph s))
  then set_paragraphs (paragraphs s ++ [PyStr.strip (current_paragraph s)])
         (set_in_paragraph false s)
  else set_in_paragraph false s.
Proof. reflexivity. Qed.

Lemma feed_element (s : SimpleHTMLParser) (el : element) :
  idle s → well_formed_el el = true →
  ∃ ch lk cp md,
    feed s (callbacks_of el) =
    Parser (title s ++ join (title_texts [el])) false
      (headings s ++ trimmed_nonempty (heading_texts [el]))%list false ch
      lk (paragraphs s ++ trimmed_nonempty (paragraph_texts [el]))%list false cp
      md.
Proof.
  intros (Hit & Hih & Hip) Hwf.
  destruct s as [t it hs ih ch lk ps ip cp md]; simpl in *; subst.
  destruct el as [attrs body|tag attrs body|attrs body|e]; simpl in Hwf.
  - cbn [callbacks_of]. rewrite feed_cons, feed_app.
    change (dispatch ?s (StartTag "title" attrs)) with (set_in_title true s).
    destruct (feed_inline body (set_in_title true
                (Parser t false hs false ch lk ps false cp md)) Hwf)
      as (lk' & md' & ->).
    simpl. rewrite !app_nil_r.
    change (join (title_texts [TitleEl attrs body])) with (text_of body ++ "").
    rewrite append_nil_r. eauto.
  - apply andb_true_iff in Hwf as [Htag Hwf].
    cbn [callbacks_of]. rewrite feed_cons, feed_app.
    cbn [dispatch]. unfold handle_starttag.
    rewrite (heading_tag_not_title _ Htag), Htag.
    match goal with |- context [feed ?s0 body] =>
      destruct (feed_inline body s0 Hwf) as (lk' & md' & ->) end.
    simpl. unfold handle_endtag.
    rewrite (heading_tag_not_title _ Htag), Htag. simpl.
    change (heading_texts [HeadingEl tag attrs body]) with [text_of body].
    rewrite trimmed_nonempty_one, append_nil_r, app_nil_r, !append_nil_l.
    destruct (PyStr.truthy (PyStr.strip (text_of body)));
      simpl; rewrite ?app_nil_r; eauto.
  - cbn [callbacks_of]. rewrite feed_cons, feed_app.
    change (dispatch ?s (StartTag "p" attrs))
      with (set_current_paragraph "" (set_in_paragraph true s)).
    match goal with |- context [feed ?s0 body] =>
      destruct (feed_inline body s0 Hwf) as (lk' & md' & ->) end.
    simpl. rewrite handle_endtag_p. simpl.
    change (paragraph_texts [ParagraphEl attrs body]) with [text_of body].
    rewrite trimmed_nonempty_one, append_nil_r, app_nil_r, !append_nil_l.
    destruct (PyStr.truthy (PyStr.strip (text_of body)));
      simpl; rewrite ?app_nil_r; eauto.
  - cbn [callbacks_of].
    destruct (feed_inline [e] (Parser t false hs false ch lk ps false cp md))
      as (lk' & md' & ->); [simpl; by rewrite Hwf|].
    simpl. rewrite !app_nil_r, append_nil_r. eauto.
Qed.

(** The text side of the parser after a well-formed document. *)
Lemma feed_document (doc : document) :
  ∀ s : SimpleHTMLParser,
    idle s → well_formed doc = true →
    ∃ ch lk cp md,
      feed s (callbacks doc) =
      Parser (title s ++ join (title_texts doc)) false
        (headings s ++ trimmed_nonempty (heading_texts doc))%list false ch
        lk (paragraphs s ++ trimmed_nonempty (paragraph_texts doc))%list false cp
        md.
Proof.
  induction doc as [|el doc IH]; intros s Hs Hwf.
  - destruct Hs as (Hit & Hih & Hip).
    destruct s as [t it hs ih ch lk ps ip cp md]; simpl in *; subst.
    change (join (title_texts [])) with "".
    rewrite append_nil_r, !app_nil_r. eauto.
  - apply andb_true_iff in Hwf as [Hel Hwf].
    change (callbacks (el :: doc)) with (callbacks_of el ++ callbacks doc)%list.
    rewrite feed_app.
    destruct (feed_element s el Hs Hel) as (ch & lk & cp & md & ->).
    edestruct IH as (ch' & lk' & cp' & md' & ->); [|exact Hwf|]; [done|].
    cbn [title headings paragraphs].
    change (el :: doc) with ([el] ++ doc)%list.
    unfold title_texts, heading_texts, paragraph_texts.
    rewrite !omap_app, join_app, !trimmed_nonempty_app, append_assoc,
      <- !(assoc_L (++)).
    eauto.
Qed.

Lemma idle_init : idle init.
Proof. done. Qed.

(** Two of the documents the specification lists as tests. *)
Example empty_document :
  make_data (feed init []) "u" "t" =
  {| data_title := ""; data_url := "u"; data_heading := None;
     data_metaDescription := None; data_links := []; data_paragraphs := [];
     data_timestamp := "t" |}.
Proof. reflexivity. Qed.

Example meta_name_case_varied :
  data_metaDescription
    (make_data
       (feed init [StartTag "meta" [("name", Some "Description");
                                    ("content", Some "hello")]]) "u" "t")
  = Some "hello".
Proof. reflexivity. Qed.

(** ** Attributes *)

Lemma attributes_app (name : string) (l1 l2 : list attr) :
  attributes name (l1 ++ l2) = (attributes name l1 ++ attributes name l2)%list.
Proof. unfold attributes. by rewrite filter_app, fmap_app. Qed.

Lemma attributes_one (name n : string) (v : option string) :
  attributes name [(n, v)] = if String.eqb n name then [v] else [].
Proof.
  unfold attributes.
  destruct (String.eqb_spec n name) as [->|Hne].
  - by rewrite filter_cons_True.
  - by rewrite filter_cons_False.
Qed.

Lemma first_href_spec (attrs : list attr) :
  first_href attrs = mjoin (attribute "href" attrs).
Proof.
  unfold attribute. induction attrs as [|[n v] attrs IH]; [done|]. simpl.
  destruct (String.eqb_spec n "href") as [->|Hne].
  - by rewrite filter_cons_True.
  - by rewrite filter_cons_False.
Qed.

(** The two locals after the loop over the attributes of a [<meta>] tag. *)
Lemma meta_scan_spec (attrs : list attr) :
  meta_scan attrs =
  (names_description attrs, default None (last (attributes "content" attrs))).
Proof.
  unfold meta_scan, names_description.
  induction attrs as [|[n v] attrs IH] using rev_ind; [done|].
  rewrite foldl_snoc, IH, !attributes_app, !attributes_one, existsb_app.
  unfold meta_attr.
  destruct (String.eqb_spec n "name") as [->|Hname].
  - change (String.eqb "name" "content") with false.
    rewrite app_nil_r. destruct v as [v|]; simpl.
    + case_bool_decide as Hv.
      * apply String.eqb_eq in Hv. rewrite Hv. by rewrite orb_true_r.
      * apply String.eqb_neq in Hv. rewrite Hv. by rewrite !orb_false_r.
    + by rewrite !orb_false_r.
  - simpl. rewrite orb_false_r.
    destruct (String.eqb n "content").
    + rewrite last_snoc. by destruct v.
    + rewrite app_nil_r. by destruct v.
Qed.

(** ** The meta description *)

Lemma handle_starttag_meta (attrs : list attr) (s : SimpleHTMLParser) :
  handle_starttag "meta" attrs s =
  match description_of (StartTag "meta" attrs) with
  | Some c => set_meta_description (Some c) s
  | None => s
  end.
Proof.
  unfold handle_starttag, description_of.
  change (String.eqb "meta" "title") with false.
  change (is_heading_tag "meta") with false.
  change (String.eqb "meta" "a") with false.
  change (String.eqb "meta" "p") with false.
  change (String.eqb "meta" "meta") with true.
  rewrite meta_scan_spec, bool_decide_eq_true_2 by done. cbn [andb].
  destruct (names_description attrs); [|done]. cbn [andb].
  destruct (last (attributes "content" attrs)) as [[c|]|]; [|done..].
  simpl. destruct c; [done|]. by rewrite bool_decide_eq_false_2.
Qed.

(** Only a [<meta>] tag that records a description changes
    [meta_description]. *)
Lemma meta_description_dispatch (s : SimpleHTMLParser) (e : event) :
  meta_description (dispatch s e) =
  match description_of e with
  | Some c => Some c
  | None => meta_description s
  end.
Proof.
  destruct e as [tag attrs|tag|d]; cbn [dispatch].
  - destruct (decide (tag = "meta")) as [->|Hne].
    + rewrite handle_starttag_meta.
      by destruct (description_of (StartTag "meta" attrs)).
    + unfold description_of. rewrite bool_decide_eq_false_2 by done.
      cbn [andb]. unfold handle_starttag.
      apply String.eqb_neq in Hne. rewrite Hne.
      repeat match goal with
             | |- context [if ?b then _ else _] => destruct b
             | |- context [match ?o with Some _ => _ | None => _ end] =>
                 destruct o
             end; done.
  - unfold description_of, handle_endtag.
    repeat match goal with
           | |- context [if ?b then _ else _] => destruct b
           end; done.
  - unfold description_of, handle_data.
    repeat match goal with
           | |- context [match ?o with Some _ => _ | None => _ end] =>
               destruct o
           | |- context [if ?b then _ else _] => destruct b
           end; done.
Qed.

Lemma meta_description_feed (evs : list event) (s : SimpleHTMLParser) :
  meta_description (feed s evs) =
  match last (descriptions evs) with
  | Some c => Some c
  | None => meta_description s
  end.
Proof.
  induction evs as [|e evs IH] using rev_ind; [done|].
  rewrite feed_app. change (feed ?s0 [e]) with (dispatch s0 e).
  rewrite meta_description_dispatch, IH.
  unfold descriptions. rewrite omap_app. simpl.
  destruct (description_of e) as [c|].
  - by rewrite last_snoc.
  - by rewrite app_nil_r.
Qed.

(** C1, as stated, fails: of two description tags the second one is the
    value extracted, not the first. *)
Lemma meta_first_match_counterexample :
  let evs :=
    [ StartTag "meta" [("name", Some "description"); ("content", Some "first")];
      StartTag "meta" [("name", Some "description"); ("content", Some "second")] ]
  in
  descriptions evs = ["first"; "second"]
  ∧ data_metaDescription (make_data (feed init evs) "u" "t") = Some "second"
  ∧ data_metaDescription (make_data (feed init evs) "u" "t")
    ≠ head (descriptions evs).
Proof. vm_compute. by repeat split. Qed.

(** C1, amended: the extracted [metaDescription] is the [content] of the
    last [<meta name="description">] tag that has a non-empty content
    (last match wins), and [None] when there is no such tag; every later
    such tag overwrites the value recorded before. *)
Theorem meta_last_match (evs : list event) (url timestamp : string) :
  data_metaDescription (make_data (feed init evs) url timestamp)
  = last (descriptions evs).
Proof.
  cbn [make_data data_metaDescription]. rewrite meta_description_feed.
  by destruct (last (descriptions evs)).
Qed.

(** C10: a [<meta>] tag none of whose [content] attributes carries a
    non-empty value (so also a tag with no [content] attribute) leaves the
    parser as it is, whatever its [name]: it neither sets nor clears
    [meta_description]. *)
Theorem meta_without_content_keeps
    (attrs : list attr) (s : SimpleHTMLParser) :
  (∀ v, v ∈ attributes "content" attrs → v = None ∨ v = Some "") →
  handle_starttag "meta" attrs s = s
  ∧ meta_description (handle_starttag "meta" attrs s) = meta_description s.
Proof.
  intros Hc.
  assert (handle_starttag "meta" attrs s = s) as ->; [|done].
  rewrite handle_starttag_meta. unfold description_of.
  destruct (bool_decide ("meta" = "meta") && names_description attrs); [|done].
  destruct (last (attributes "content" attrs)) as [[c|]|] eqn:E; [|done..].
  apply last_Some_elem_of in E.
  destruct (Hc _ E) as [?|[= ->]]; done.
Qed.

Lemma meta_without_content_keeps_witness :
  let s := feed init
    [StartTag "meta" [("name", Some "description"); ("content", Some "kept")]] in
  meta_description s = Some "kept"
  ∧ meta_description
      (handle_starttag "meta" [("name", Some "Description"); ("content", Some "")] s)
    = meta_description s
  ∧ meta_description
      (handle_starttag "meta" [("name", Some "description")] s)
    = meta_description s.
Proof.
  split; [reflexivity|]. split.
  - apply (meta_without_content_keeps
             [("name", Some "Description"); ("content", Some "")]).
    intros v Hv. vm_compute in Hv. apply list_elem_of_singleton in Hv. by right.
  - apply (meta_without_content_keeps [("name", Some "description")]).
    intros v Hv. vm_compute in Hv. by apply elem_of_nil in Hv.
Defined.

(** ** Links *)

Lemma links_handle_starttag (tag : string) (attrs : list attr)
    (s : SimpleHTMLParser) :
  links (handle_starttag tag attrs s) =
  (links s ++
   option_list (Link "" <$> anchor_href (StartTag tag attrs)))%list.
Proof.
  unfold handle_starttag, anchor_href.
  destruct (String.eqb_spec tag "a") as [->|Hne].
  - change (String.eqb "a" "title") with false.
    change (is_heading_tag "a") with false.
    rewrite bool_decide_eq_true_2 by done.
    rewrite first_href_spec.
    destruct (attribute "href" attrs) as [[h|]|]; simpl;
      rewrite ?app_nil_r; [|done..].
    destruct h; simpl; [by rewrite app_nil_r|done].
  - rewrite bool_decide_eq_false_2 by done. simpl. rewrite app_nil_r.
    repeat match goal with
           | |- context [if ?b then _ else _] => destruct b
           | |- context [let '(_, _) := ?x in _] => destruct x
           end; done.
Qed.

Lemma links_handle_endtag (tag : string) (s : SimpleHTMLParser) :
  links (handle_endtag tag s) = links s.
Proof.
  unfold handle_endtag.
  repeat match goal with
         | |- context [if ?b then _ else _] => destruct b
         end; done.
Qed.

Lemma links_handle_data (d : string) (s : SimpleHTMLParser) :
  links (handle_data d s) =
  match last (links s) with
  | Some e =>
      if PyStr.truthy (text e) then links s
      else set_last_text (PyStr.strip d) (links s)
  | None => links s
  end.
Proof.
  unfold handle_data.
  destruct (in_title s), (in_heading s), (in_paragraph s); simpl;
    destruct (last (links s)) as [e|]; try done;
    by destruct (PyStr.truthy (text e)).
Qed.

Lemma set_last_text_snoc (v : string) (l : list link) (e : link) :
  set_last_text v (l ++ [e]) = (l ++ [ {| text := v; href := href e |} ])%list.
Proof.
  unfold set_last_text. rewrite length_app. simpl.
  replace (pred (length l + 1)) with (length l + 0) by lia.
  by rewrite alter_app_r.
Qed.

Lemma hrefs_set_last_text (v : string) (l : list link) :
  href <$> set_last_text v l = href <$> l.
Proof.
  unfold set_last_text.
  rewrite (list_fmap_alter href _ id) by by apply Forall_true.
  by apply list_alter_id.
Qed.

Lemma hrefs_dispatch (s : SimpleHTMLParser) (e : event) :
  href <$> links (dispatch s e) =
  ((href <$> links s) ++ option_list (anchor_href e))%list.
Proof.
  destruct e as [tag attrs|tag|d]; cbn [dispatch].
  - rewrite links_handle_starttag, fmap_app. f_equal.
    by destruct (anchor_href (StartTag tag attrs)).
  - by rewrite links_handle_endtag, app_nil_r.
  - rewrite links_handle_data. simpl. rewrite app_nil_r.
    destruct (last (links s)) as [x|]; [|done].
    destruct (PyStr.truthy (text x)); [done|]. apply hrefs_set_last_text.
Qed.

Lemma hrefs_feed (evs : list event) (s : SimpleHTMLParser) :
  href <$> links (feed s evs) = ((href <$> links s) ++ anchor_hrefs evs)%list.
Proof.
  induction evs as [|e evs IH] using rev_ind.
  - by rewrite app_nil_r.
  - rewrite feed_app. change (feed ?s0 [e]) with (dispatch s0 e).
    rewrite hrefs_dispatch, IH. unfold anchor_hrefs.
    by rewrite omap_app, <- (assoc_L (++)).
Qed.

(** An entry whose text has been set survives every callback. *)
Lemma links_dispatch_keep (s : SimpleHTMLParser) (e : event)
    (i : nat) (x : link) :
  links s !! i = Some x → text x ≠ "" → links (dispatch s e) !! i = Some x.
Proof.
  intros Hi Hx. destruct e as [tag attrs|tag|d]; cbn [dispatch].
  - rewrite links_handle_starttag. by apply lookup_app_l_Some.
  - by rewrite links_handle_endtag.
  - rewrite links_handle_data.
    destruct (last (links s)) as [y|] eqn:Hlast; [|done].
    destruct (PyStr.truthy (text y)) eqn:Hy; [done|].
    unfold set_last_text. rewrite list_lookup_alter_ne; [done|].
    intros <-. rewrite last_lookup, Hi in Hlast.
    injection Hlast as ->. by apply truthy_false in Hy.
Qed.

(** C3, as stated, fails: an [href] attribute that is present but empty
    (or has no value) appends nothing. *)
Lemma anchor_empty_href_counterexample :
  attribute "href" [("href", Some "")] = Some (Some "")
  ∧ links (handle_starttag "a" [("href", Some "")] init) = []
  ∧ attribute "href" [("href", None)] = Some None
  ∧ links (handle_starttag "a" [("href", None)] init) = [].
Proof. vm_compute. by repeat split. Qed.

(** C3, amended: an [a] opening tag whose first [href] attribute has a
    non-empty value [h] appends the entry [{text: "", href: h}] to the end
    of [links] at once and changes nothing else; the character data that
    comes next fills in the text of that entry, trimmed. *)
Theorem anchor_appended (attrs : list attr) (h : string)
    (s : SimpleHTMLParser) :
  attribute "href" attrs = Some (Some h) → h ≠ "" →
  handle_starttag "a" attrs s =
    set_links (links s ++ [ {| text := ""; href := h |} ]) s
  ∧ ∀ d, links (handle_data d (handle_starttag "a" attrs s)) =
         (links s ++ [ {| text := PyStr.strip d; href := h |} ])%list.
Proof.
  intros Hattr Hh.
  assert (handle_starttag "a" attrs s =
          set_links (links s ++ [ {| text := ""; href := h |} ]) s) as ->.
  { unfold handle_starttag.
    change (String.eqb "a" "title") with false.
    change (is_heading_tag "a") with false.
    change (String.eqb "a" "a") with true. cbn match.
    rewrite first_href_spec, Hattr. simpl.
    apply truthy_spec in Hh. by rewrite Hh. }
  split; [done|]. intros d.
  rewrite links_handle_data. cbn [links set_links].
  rewrite last_snoc. simpl. by rewrite set_last_text_snoc.
Qed.

Lemma anchor_appended_witness :
  links (handle_data " home "
           (handle_starttag "a" [("class", Some "nav"); ("href", Some "/")] init))
  = [ {| text := "home"; href := "/" |} ].
Proof.
  apply (anchor_appended [("class", Some "nav"); ("href", Some "/")] "/" init);
    [reflexivity | discriminate].
Defined.

(** C5: whatever the flags say, character data that arrives while the
    last entry of [links] has an empty text sets that text to the trimmed
    data; and an entry whose text is non-empty stays as it is through
    every later callback. *)
Theorem link_text_filled_once (s : SimpleHTMLParser) :
  (∀ d l e, links s = (l ++ [e])%list → text e = "" →
     links (handle_data d s) =
     (l ++ [ {| text := PyStr.strip d; href := href e |} ])%list)
  ∧ (∀ evs i e, links s !! i = Some e → text e ≠ "" →
       links (feed s evs) !! i = Some e).
Proof.
  split.
  - intros d l e Hl He. rewrite links_handle_data, Hl, last_snoc, He. simpl.
    apply set_last_text_snoc.
  - intros evs. revert s.
    induction evs as [|ev evs IH]; intros s i e Hi He; [done|].
    rewrite feed_cons. apply IH; [|done]. by apply links_dispatch_keep.
Qed.

Lemma link_text_filled_once_witness :
  let s := feed init [StartTag "a" [("href", Some "/a")]; EndTag "a";
                      StartTag "p" []] in
  links (handle_data " late " s) = [ {| text := "late"; href := "/a" |} ]
  ∧ links (feed (handle_data " late " s)
             [Data "more"; StartTag "a" [("href", Some "/b")]; Data "b"]) !! 0
    = Some {| text := "late"; href := "/a" |}.
Proof.
  intros s. split.
  - exact (proj1 (link_text_filled_once s) " late " []
             {| text := ""; href := "/a" |} eq_refl eq_refl).
  - apply (proj2 (link_text_filled_once (handle_data " late " s)));
      [reflexivity | discriminate].
Defined.



(** ** Title, headings and paragraphs of a well-formed document *)

(** C2, as stated, fails: the opening [title] tag leaves the buffer as it
    is, and of two [<title>] elements the extracted title holds the text
    of both. *)
Lemma title_first_element_counterexample :
  let doc := [TitleEl [] [Data "A"]; TitleEl [] [Data "B"]] in
  well_formed doc = true
  ∧ head (title_texts doc) = Some "A"
  ∧ title (handle_starttag "title" [] (feed init (callbacks (take 1 doc))))
    = "A"
  ∧ data_title (make_data (feed init (callbacks doc)) "u" "t") = "AB"
  ∧ data_title (make_data (feed init (callbacks doc)) "u" "t") ≠ "A".
Proof. vm_compute. by repeat split. Qed.

(** C2, amended: an opening [title] tag sets [in_title] and keeps the
    buffer, so the extracted title is the untrimmed concatenation of the
    text of all [<title>] elements of the document, in order; for a
    well-formed document with a single [<title>X</title>] it is [X],
    untrimmed. *)
Theorem title_accumulates (doc : document) (url timestamp : string) :
  well_formed doc = true →
  (∀ attrs s, handle_starttag "title" attrs s = set_in_title true s)
  ∧ data_title (make_data (feed init (callbacks doc)) url timestamp)
    = join (title_texts doc)
  ∧ (∀ X, title_texts doc = [X] →
       data_title (make_data (feed init (callbacks doc)) url timestamp) = X).
Proof.
  intros Hwf.
  destruct (feed_document doc init idle_init Hwf) as (ch & lk & cp & md & E).
  assert (data_title (make_data (feed init (callbacks doc)) url timestamp)
          = join (title_texts doc)) as Ht by (by rewrite E).
  split; [done|]. split; [done|].
  intros X HX. rewrite Ht, HX. apply append_nil_r.
Qed.

Lemma title_accumulates_witness :
  let doc := [Loose (StartTag "head" []); TitleEl [] [Data " X "];
              Loose (EndTag "head"); ParagraphEl [] [Data "text"]] in
  data_title (make_data (feed init (callbacks doc)) "u" "t") = " X ".
Proof.
  intros doc.
  apply (proj2 (proj2 (title_accumulates doc "u" "t" eq_refl))).
  reflexivity.
Defined.

(** C4, as stated, fails: [h0] is a heading for the parser although it
    is none of [h1] to [h9], so a document without any of those still
    gets a [firstHeading], and a [<h0>] in front of an [<h1>] takes its
    place. *)
Lemma first_heading_counterexample :
  let doc0 := [HeadingEl "h0" [] [Data "Z"]] in
  let doc := [HeadingEl "h0" [] [Data "Z"]; HeadingEl "h1" [] [Data "A"]] in
  (well_formed doc0 = true
   ∧ h1_h9_texts doc0 = []
   ∧ data_heading (make_data (feed init (callbacks doc0)) "u" "t")
     = Some "Z")
  ∧ (well_formed doc = true
     ∧ head (PyStr.strip <$> h1_h9_texts doc) = Some "A"
     ∧ data_heading (make_data (feed init (callbacks doc)) "u" "t")
       = Some "Z").
Proof. vm_compute. by repeat split. Qed.

(** C4, amended: [firstHeading] is the trimmed text of the first heading
    element that is kept, and [None] when there is none, where the
    heading elements are those of every tag made of the letter [h] and a
    digit, [h0] included; a tag is a heading tag exactly when it is two
    characters, the letter [h] and a digit; and a heading whose trimmed
    text is empty is not kept: its closing tag appends nothing to
    [headings]. *)
Theorem first_heading (doc : document) (url timestamp : string) :
  well_formed doc = true →
  data_heading (make_data (feed init (callbacks doc)) url timestamp)
    = head (trimmed_nonempty (heading_texts doc))
  ∧ (∀ tag, is_heading_tag tag = true ↔
       ∃ d : ascii, tag = String "h" (String d "") ∧ PyStr.isdigit d = true)
  ∧ (∀ tag s, is_heading_tag tag = true →
       PyStr.strip (current_heading s) = "" →
       headings (handle_endtag tag s) = headings s).
Proof.
  intros Hwf.
  destruct (feed_document doc init idle_init Hwf) as (ch & lk & cp & md & E).
  split; [by rewrite E|]. split; [apply is_heading_tag_spec|].
  intros tag s Htag Hempty. unfold handle_endtag.
  rewrite (heading_tag_not_title _ Htag), Htag.
  cbn [current_heading set_in_heading]. by rewrite Hempty.
Qed.

Lemma first_heading_witness :
  let doc := [HeadingEl "h3" [] [Data " "; StartTag "span" []; EndTag "span"];
              Loose (Data "between");
              HeadingEl "h2" [] [Data " Second "; StartTag "b" []; Data "!"]] in
  data_heading (make_data (feed init (callbacks doc)) "u" "t") = Some "Second !".
Proof.
  intros doc. apply (proj1 (first_heading doc "u" "t" eq_refl)).
Defined.

(** C6, as stated, fails on documents that are not well formed: a [<p>]
    left open when the next one starts is lost, and a [</p>] too many
    records the paragraph before it a second time. *)
Lemma paragraphs_count_counterexample :
  let unclosed := [StartTag "p" []; Data "one"; StartTag "p" []; Data "two";
                   EndTag "p"] in
  let stray := [StartTag "p" []; Data "x"; EndTag "p"; EndTag "p"] in
  (p_elements unclosed = 2
   ∧ data_paragraphs (make_data (feed init unclosed) "u" "t") = ["two"]
   ∧ length (data_paragraphs (make_data (feed init unclosed) "u" "t"))
     ≠ min (p_elements unclosed) 10)
  ∧ (p_elements stray = 1
     ∧ data_paragraphs (make_data (feed init stray) "u" "t") = ["x"; "x"]
     ∧ length (data_paragraphs (make_data (feed init stray) "u" "t"))
       ≠ min (p_elements stray) 10).
Proof. vm_compute. repeat split; discriminate. Qed.

(** C6, amended: for a well-formed document (its title, heading and
    [<p>] elements closed and not inside one another) the extracted
    paragraphs are the trimmed texts of its [<p>] elements, those empty
    after trimming left out, in document order and cut after the tenth;
    with [N] the number of [<p>] elements not left out there are
    [min N 10] entries. *)
Theorem paragraphs_capped (doc : document) (url timestamp : string) :
  well_formed doc = true →
  let extracted :=
    data_paragraphs (make_data (feed init (callbacks doc)) url timestamp) in
  extracted = take 10 (trimmed_nonempty (paragraph_texts doc))
  ∧ length extracted = min (length (trimmed_nonempty (paragraph_texts doc))) 10.
Proof.
  intros Hwf.
  destruct (feed_document doc init idle_init Hwf) as (ch & lk & cp & md & E).
  cbn zeta. rewrite E. cbn [make_data data_paragraphs paragraphs init].
  split; [done|]. rewrite length_take, app_nil_l. lia.
Qed.

Lemma paragraphs_capped_witness :
  let p := ParagraphEl [] [Data " a "; StartTag "b" []; Data "b "; EndTag "b"] in
  let doc := [p; ParagraphEl [] [Data "  "]; p; p; p; p; p; p; p; p; p; p] in
  let extracted :=
    data_paragraphs (make_data (feed init (callbacks doc)) "u" "t") in
  length (paragraph_texts doc) = 12
  ∧ extracted = replicate 10 "a b"
  ∧ length extracted = 10.
Proof.
  intros p doc. split; [reflexivity|].
  exact (paragraphs_capped doc "u" "t" eq_refl).
Defined.

(** ** The orchestrator *)

Lemma save_error_written (w : world) (url : string) (e : exn) (s : os) :
  open_w w (open_attempts s) = None →
  save_error w url e s =
  (inr (error_data w url e (clock_reads s)),
   OS (Some (error_data w url e (clock_reads s)))
      (log s ++ [(ERROR, "Error data saved to scraped_data.json")])
      (S (clock_reads s)) (S (open_attempts s))).
Proof.
  intros Hopen. unfold save_error, bind, now, dump, logger, ret.
  cbn [open_attempts]. by rewrite Hopen.
Qed.

Lemma save_error_refused (w : world) (url : string) (e e' : exn) (s : os) :
  open_w w (open_attempts s) = Some e' →
  save_error w url e s =
  (inl (Exc e'),
   OS (if opened w (open_attempts s) then None else scraped_data_json s)
      (log s) (S (clock_reads s)) (S (open_attempts s))).
Proof.
  intros Hopen. unfold save_error, bind, now, dump.
  cbn [open_attempts]. by rewrite Hopen.
Qed.

(** X8: when the page is fetched, [feed] raises nothing on it and the
    dump into the snapshot file completes, [scrape_website] returns the
    record it has just stored: [source_url] and [data.url] are the URL
    given, [data] is what the parser extracted from the body, and
    [data.timestamp] and [scraped_at] are two successive readings of the
    clock. *)
Lemma scrape_website_success (w : world) (url html : string) (s : os) :
  urlopen_read w url = inr html →
  feed_raises w html = None →
  open_w w (open_attempts s) = None →
  let data := make_data (feed init (feed_callbacks w html)) url
                (isoformat_now w (clock_reads s)) in
  let scraped := ScrapedData url (isoformat_now w (S (clock_reads s))) data in
  scrape_website w url s =
  (inr scraped,
   OS (Some scraped)
      (log s ++ [(INFO, "Starting to fetch: " ++ url);
                 (INFO, "Page fetched successfully, parsing content...");
                 (INFO, "Data saved to scraped_data.json")])
      (S (S (clock_reads s))) (S (open_attempts s))).
Proof.
  intros Hfetch Hfeed Hopen.
  unfold scrape_website, try_except, bind, fetch, parser_feed, logger, now,
    dump, ret.
  rewrite Hfetch. cbn. rewrite Hfeed. cbn. rewrite Hopen. cbn.
  by rewrite <- !(assoc_L (++)).
Qed.

(** C8, as stated, fails: when the handler cannot open the snapshot file
    the exception of [open] leaves [scrape_website], and the file keeps
    what it held. *)
Lemma scrape_website_propagates_counterexample :
  let w := World (fun _ => inl (Exn "URLError" "<urlopen error timed out>" true))
                 (fun _ => []) (fun _ => "2024-01-01T00:00:00")
                 (fun _ => Some (Exn "PermissionError"
                                   "[Errno 13] Permission denied: 'scraped_data.json'"
                                   false))
                 (fun _ => None) (fun _ => false) in
  let run := scrape_website w "http://example.invalid/" (boot None) in
  run.1 = inl (Exc (Exn "PermissionError"
                     "[Errno 13] Permission denied: 'scraped_data.json'" false))
  ∧ scraped_data_json run.2 = None.
Proof. vm_compute. by split. Qed.

(** C8, amended: when the fetch raises a [URLError] (or [HTTPError]) and
    the dump into the snapshot file completes, [scrape_website] raises
    nothing: it returns the Failure record whose [type] is the name of
    the exception's class and whose [message] is its [str()], and the
    snapshot file then holds exactly that record. *)
Theorem scrape_website_network_error
    (w : world) (url : string) (e : exn) (s : os) :
  urlopen_read w url = inl e →
  is_URLError e = true →
  open_w w (open_attempts s) = None →
  let failure :=
    ErrorData url (isoformat_now w (clock_reads s))
      {| message := exn_str e; type_name := exn_type e |} in
  scrape_website w url s =
  (inr failure,
   OS (Some failure)
      (log s ++ [(INFO, "Starting to fetch: " ++ url);
                 (ERROR, "Error fetching URL: " ++ exn_str e);
                 (ERROR, "Error data saved to scraped_data.json")])
      (S (clock_reads s)) (S (open_attempts s))).
Proof.
  intros Hfetch Hurl Hopen.
  unfold scrape_website, try_except, fetch.
  unfold bind at 1. unfold logger at 1. unfold bind at 1.
  rewrite Hfetch. unfold raise. rewrite Hurl.
  unfold bind at 1. unfold logger at 1.
  rewrite save_error_written by exact Hopen.
  cbn. by rewrite <- !(assoc_L (++)).
Qed.

Lemma scrape_website_network_error_witness :
  let w := World (fun _ => inl (Exn "HTTPError" "HTTP Error 404: Not Found" true))
                 (fun _ => []) (fun _ => "2024-01-01T00:00:00")
                 (fun _ => None)
                 (fun _ => None) (fun _ => false) in
  let old := ScrapedData "http://old/" "2023-12-31T00:00:00"
               (make_data init "http://old/" "2023-12-31T00:00:00") in
  let failure := ErrorData "http://example.org/x" "2024-01-01T00:00:00"
                   {| message := "HTTP Error 404: Not Found";
                      type_name := "HTTPError" |} in
  (scrape_website w "http://example.org/x" (boot (Some old))).1 = inr failure
  ∧ scraped_data_json
      (scrape_website w "http://example.org/x" (boot (Some old))).2
    = Some failure.
Proof.
  intros w old failure.
  rewrite (scrape_website_network_error w "http://example.org/x"
             (Exn "HTTPError" "HTTP Error 404: Not Found" true)
             (boot (Some old)) eq_refl eq_refl eq_refl).
  split; reflexivity.
Defined.

(** X9: an exception of the fetch that is no [URLError] (a time-out while
    reading, a body that is not UTF-8, ...) is saved by the second
    [except] clause in the same way: the Failure record carries the name
    of the exception's own class, not a generic kind, and its [str()]. *)
Lemma scrape_website_unexpected_error
    (w : world) (url : string) (e : exn) (s : os) :
  urlopen_read w url = inl e →
  is_URLError e = false →
  open_w w (open_attempts s) = None →
  scrape_website w url s =
  (inr (error_data w url e (clock_reads s)),
   OS (Some (error_data w url e (clock_reads s)))
      (log s ++ [(INFO, "Starting to fetch: " ++ url);
                 (ERROR, "Unexpected error: " ++ exn_str e);
                 (ERROR, "Error data saved to scraped_data.json")])
      (S (clock_reads s)) (S (open_attempts s))).
Proof.
  intros Hfetch Hurl Hopen.
  unfold scrape_website, try_except, fetch.
  unfold bind at 1. unfold logger at 1. unfold bind at 1.
  rewrite Hfetch. unfold raise. rewrite Hurl.
  unfold bind at 1. unfold logger at 1.
  rewrite save_error_written by exact Hopen.
  cbn. by rewrite <- !(assoc_L (++)).
Qed.

(** ** The exit status *)

Lemma main_no_url (w : world) (argv : list string)
    (environ : string -> option string) (s : os) :
  PyStr.truthy_opt (url_to_scrape argv environ) = false →
  (main w argv environ s).1 = inl (SystemExit 1).
Proof.
  unfold main. destruct (url_to_scrape argv environ) as [url|]; simpl.
  - by intros ->.
  - done.
Qed.

Lemma main_with_url (w : world) (argv : list string)
    (environ : string -> option string) (url : string) (s : os) :
  url_to_scrape argv environ = Some url → url ≠ "" →
  (main w argv environ s).1 =
  match (scrape_website w url s).1 with
  | inr _ => inl (SystemExit 0)
  | inl (Exc _) => inl (SystemExit 1)
  | inl (SystemExit code) => inl (SystemExit code)
  end.
Proof.
  intros Hu Hurl%truthy_spec. unfold main. rewrite Hu, Hurl.
  unfold try_except. unfold bind at 1.
  destruct (scrape_website w url s) as [[[e|code]|res] s']; done.
Qed.

Lemma save_error_no_exit (w : world) (url : string) (e : exn) (s : os)
    (code : Z) :
  (save_error w url e s).1 ≠ inl (SystemExit code).
Proof.
  destruct (open_w w (open_attempts s)) as [e'|] eqn:Hopen.
  - by rewrite (save_error_refused w url e e' s Hopen).
  - by rewrite (save_error_written w url e s Hopen).
Qed.

(** [scrape_website] itself never exits the process. *)
Lemma scrape_website_no_exit (w : world) (url : string) (s : os) (code : Z) :
  (scrape_website w url s).1 ≠ inl (SystemExit code).
Proof.
  assert (∀ e s0,
    ((if is_URLError e
      then logger ERROR ("Error fetching URL: " ++ exn_str e) ;;
           save_error w url e
      else logger ERROR ("Unexpected error: " ++ exn_str e) ;;
           save_error w url e) s0).1 ≠ inl (SystemExit code)) as Hhandler.
  { intros e s0. destruct (is_URLError e);
      unfold bind at 1; unfold logger at 1; apply save_error_no_exit. }
  unfold scrape_website, try_except.
  unfold bind at 1. unfold logger at 1.
  unfold fetch. destruct (urlopen_read w url) as [e|html].
  - unfold bind at 1. unfold raise. apply Hhandler.
  - unfold bind, ret, logger, parser_feed. cbn.
    destruct (feed_raises w html) as [e|]; [apply Hhandler|].
    unfold now, dump. cbn.
    destruct (open_w w (open_attempts s)) as [e'|]; [apply Hhandler|done].
Qed.

(** The process exits with 0 or 1 and nothing else. *)
Lemma exit_status_main_cases (w : world) (argv : list string)
    (environ : string -> option string) (s : os) :
  exit_status (main w argv environ s).1 = 0%Z
  ∨ exit_status (main w argv environ s).1 = 1%Z.
Proof.
  destruct (url_to_scrape argv environ) as [url|] eqn:Hu.
  - destruct (PyStr.truthy url) eqn:Hurl.
    + apply truthy_spec in Hurl. rewrite (main_with_url _ _ _ url) by done.
      pose proof (scrape_website_no_exit w url s) as Hno.
      destruct (scrape_website w url s).1 as [[e|code]|res]; auto.
      by destruct (Hno code).
    + right. rewrite main_no_url; [done|]. by rewrite Hu.
  - right. rewrite main_no_url; [done|]. by rewrite Hu.
Qed.

(** C9: the process exits with status 0 whenever [scrape_website]
    returns, whether what it returned and saved is the page or a Failure
    record; with status 1 when neither the positional argument nor
    [SCRAPE_URL] gives a non-empty URL; and with status 1 when an
    exception leaves [scrape_website]. *)
Theorem exit_status_main (w : world) (argv : list string)
    (environ : string -> option string) (s : os) :
  let status := exit_status (main w argv environ s).1 in
  (∀ url res s',
     url_to_scrape argv environ = Some url → url ≠ "" →
     scrape_website w url s = (inr res, s') → status = 0%Z)
  ∧ ((argv !! 1 = None ∨ argv !! 1 = Some "") →
     (environ "SCRAPE_URL" = None ∨ environ "SCRAPE_URL" = Some "") →
     status = 1%Z)
  ∧ (∀ url e s',
       url_to_scrape argv environ = Some url → url ≠ "" →
       scrape_website w url s = (inl (Exc e), s') → status = 1%Z).
Proof.
  cbn zeta. split; [|split].
  - intros url res s' Hurl Hne Hrun.
    by rewrite (main_with_url _ _ _ url), Hrun.
  - intros Harg Henv. rewrite main_no_url; [done|].
    unfold url_to_scrape. destruct (Nat.ltb 1 (length argv)).
    + by destruct Harg as [-> | ->].
    + by destruct Henv as [-> | ->].
  - intros url e s' Hurl Hne Hrun.
    by rewrite (main_with_url _ _ _ url), Hrun.
Qed.

Lemma exit_status_main_witness :
  let unreachable :=
    World (fun _ => inl (Exn "URLError" "<urlopen error timed out>" true))
          (fun _ => []) (fun _ => "2024-01-01T00:00:00") (fun _ => None)
                 (fun _ => None) (fun _ => false) in
  let read_only :=
    World (fun _ => inl (Exn "URLError" "<urlopen error timed out>" true))
          (fun _ => []) (fun _ => "2024-01-01T00:00:00")
          (fun _ => Some (Exn "PermissionError" "[Errno 13] Permission denied"
                            false))
                 (fun _ => None) (fun _ => false) in
  let no_env : string -> option string := fun _ => None in
  exit_status
    (main unreachable ["fetch_data.py"; "http://example.invalid/"] no_env
       (boot None)).1 = 0%Z
  ∧ exit_status (main unreachable ["fetch_data.py"] no_env (boot None)).1 = 1%Z
  ∧ exit_status
      (main read_only ["fetch_data.py"; "http://example.invalid/"] no_env
         (boot None)).1 = 1%Z.
Proof.
  intros unreachable read_only no_env. split; [|split].
  - eapply (proj1 (exit_status_main unreachable
                     ["fetch_data.py"; "http://example.invalid/"] no_env
                     (boot None)) "http://example.invalid/");
      [reflexivity | discriminate | vm_compute; reflexivity].
  - apply (proj1 (proj2 (exit_status_main unreachable ["fetch_data.py"] no_env
                           (boot None)))); by left.
  - eapply (proj2 (proj2 (exit_status_main read_only
                            ["fetch_data.py"; "http://example.invalid/"] no_env
                            (boot None))) "http://example.invalid/");
      [reflexivity | discriminate | vm_compute; reflexivity].
Defined.

(** * Further properties *)

(** ** Trimming *)

Lemma rstrip_idempotent (s : string) :
  PyStr.rstrip (PyStr.rstrip s) = PyStr.rstrip s.
Proof.
  induction s as [|c r IH]; [done|]. cbn [PyStr.rstrip].
  destruct (PyStr.rstrip r) as [|d r'] eqn:E.
  - destruct (PyStr.isspace c) eqn:Hc; [done|].
    cbn [PyStr.rstrip]. by rewrite Hc.
  - change (match PyStr.rstrip (String d r') with
            | "" => if PyStr.isspace c then "" else String c ""
            | String a s0 => String c (String a s0)
            end = String c (String d r')).
    by rewrite IH.
Qed.

Lemma lstrip_head (s : string) :
  PyStr.lstrip s = ""
  ∨ ∃ c r, PyStr.lstrip s = String c r ∧ PyStr.isspace c = false.
Proof.
  induction s as [|c r IH]; [by left|]. cbn [PyStr.lstrip].
  destruct (PyStr.isspace c) eqn:Hc; [done|]. right. by exists c, r.
Qed.

Lemma rstrip_head (c : ascii) (r : string) :
  PyStr.isspace c = false → ∃ r', PyStr.rstrip (String c r) = String c r'.
Proof.
  intros Hc. cbn [PyStr.rstrip].
  destruct (PyStr.rstrip r) as [|d r']; [rewrite Hc|]; eauto.
Qed.

Lemma strip_idempotent (s : string) :
  PyStr.strip (PyStr.strip s) = PyStr.strip s.
Proof.
  unfold PyStr.strip.
  destruct (lstrip_head s) as [->|(c & r & -> & Hc)]; [done|].
  destruct (rstrip_head c r Hc) as (r' & E). rewrite E.
  cbn [PyStr.lstrip]. rewrite Hc, <- E. apply rstrip_idempotent.
Qed.

Lemma trimmed_strip (t : string) :
  PyStr.truthy (PyStr.strip t) = true → trimmed (PyStr.strip t).
Proof.
  intros H%truthy_spec. split; [done|]. apply strip_idempotent.
Qed.

(** ** The two result lists, one callback at a time *)

Lemma paragraphs_dispatch (s : SimpleHTMLParser) (e : event) :
  paragraphs (dispatch s e) =
  if closes_p e && PyStr.truthy (PyStr.strip (current_paragraph s))
  then (paragraphs s ++ [PyStr.strip (current_paragraph s)])%list
  else paragraphs s.
Proof.
  destruct e as [tag attrs|tag|d]; cbn [dispatch closes_p andb].
  - unfold handle_starttag.
    repeat match goal with
           | |- context [if ?b then _ else _] => destruct b
           | |- context [match ?o with Some _ => _ | None => _ end] =>
               destruct o
           | |- context [let '(_, _) := ?x in _] => destruct x
           end; done.
  - destruct (String.eqb_spec tag "p") as [->|Hne].
    + rewrite handle_endtag_p. cbn [andb].
      by destruct (PyStr.truthy (PyStr.strip (current_paragraph s))).
    + cbn [andb]. unfold handle_endtag. apply String.eqb_neq in Hne.
      rewrite Hne.
      repeat match goal with
             | |- context [if ?b then _ else _] => destruct b
             end; done.
  - unfold handle_data.
    repeat match goal with
           | |- context [match ?o with Some _ => _ | None => _ end] =>
               destruct o
           | |- context [if ?b then _ else _] => destruct b
           end; done.
Qed.

Lemma handle_endtag_heading (tag : string) (s : SimpleHTMLParser) :
  is_heading_tag tag = true →
  handle_endtag tag s =
  if PyStr.truthy (PyStr.strip (current_heading s))
  then set_headings (headings s ++ [PyStr.strip (current_heading s)])
         (set_in_heading false s)
  else set_in_heading false s.
Proof.
  intros Htag. unfold handle_endtag.
  by rewrite (heading_tag_not_title _ Htag), Htag.
Qed.

Lemma headings_dispatch (s : SimpleHTMLParser) (e : event) :
  headings (dispatch s e) =
  if closes_heading e && PyStr.truthy (PyStr.strip (current_heading s))
  then (headings s ++ [PyStr.strip (current_heading s)])%list
  else headings s.
Proof.
  destruct e as [tag attrs|tag|d]; cbn [dispatch closes_heading andb].
  - unfold handle_starttag.
    repeat match goal with
           | |- context [if ?b then _ else _] => destruct b
           | |- context [match ?o with Some _ => _ | None => _ end] =>
               destruct o
           | |- context [let '(_, _) := ?x in _] => destruct x
           end; done.
  - destruct (is_heading_tag tag) eqn:Htag.
    + rewrite handle_endtag_heading by done. cbn [andb].
      by destruct (PyStr.truthy (PyStr.strip (current_heading s))).
    + cbn [andb]. unfold handle_endtag. rewrite Htag.
      repeat match goal with
             | |- context [if ?b then _ else _] => destruct b
             end; done.
  - unfold handle_data.
    repeat match goal with
           | |- context [match ?o with Some _ => _ | None => _ end] =>
               destruct o
           | |- context [if ?b then _ else _] => destruct b
           end; done.
Qed.

(** ** What the parser does with tags it does not expect *)

(** X1: a start tag other than [title], a heading, [a], [p] and [meta]
    leaves the parser exactly as it is, and so does an end tag other than
    [title], a heading and [p] (the end tags of [a] and [meta] among
    them). *)
Theorem unknown_tags_ignored (tag : string) (attrs : list attr)
    (s : SimpleHTMLParser) :
  (start_tag_known tag = false → handle_starttag tag attrs s = s)
  ∧ (structural tag = false → handle_endtag tag s = s).
Proof.
  split.
  - unfold start_tag_known. intros H.
    repeat (apply orb_false_elim in H as [H ?]).
    unfold handle_starttag.
    by repeat match goal with Heq : _ = false |- _ => rewrite Heq; clear Heq end.
  - unfold structural. intros H.
    repeat (apply orb_false_elim in H as [H ?]).
    unfold handle_endtag.
    by repeat match goal with Heq : _ = false |- _ => rewrite Heq; clear Heq end.
Qed.

Lemma unknown_tags_ignored_witness :
  let s := feed init [StartTag "p" []; Data "x";
                      StartTag "a" [("href", Some "/")]] in
  handle_starttag "div" [("class", Some "c")] s = s
  ∧ handle_endtag "a" s = s.
Proof.
  intros s. split.
  - apply (proj1 (unknown_tags_ignored "div" [("class", Some "c")] s)).
    reflexivity.
  - apply (proj2 (unknown_tags_ignored "a" [] s)). reflexivity.
Defined.

Lemma current_paragraph_endtag_p (s : SimpleHTMLParser) :
  current_paragraph (handle_endtag "p" s) = current_paragraph s.
Proof.
  rewrite handle_endtag_p.
  by destruct (PyStr.truthy (PyStr.strip (current_paragraph s))).
Qed.

Lemma current_heading_endtag_heading (tag : string) (s : SimpleHTMLParser) :
  is_heading_tag tag = true →
  current_heading (handle_endtag tag s) = current_heading s.
Proof.
  intros Htag. rewrite handle_endtag_heading by done.
  by destruct (PyStr.truthy (PyStr.strip (current_heading s))).
Qed.

(** X2: a closing tag does not empty the buffer it records.  A second
    [</p>] therefore appends the same paragraph once more, and a second
    closing heading tag, of whatever level, the same heading. *)
Theorem closing_tag_repeats (s : SimpleHTMLParser) :
  (PyStr.strip (current_paragraph s) ≠ "" →
   paragraphs (feed s [EndTag "p"; EndTag "p"]) =
   (paragraphs s ++ [PyStr.strip (current_paragraph s);
                     PyStr.strip (current_paragraph s)])%list)
  ∧ (∀ t1 t2, is_heading_tag t1 = true → is_heading_tag t2 = true →
       PyStr.strip (current_heading s) ≠ "" →
       headings (feed s [EndTag t1; EndTag t2]) =
       (headings s ++ [PyStr.strip (current_heading s);
                       PyStr.strip (current_heading s)])%list).
Proof.
  split.
  - intros H%truthy_spec.
    change (feed s [EndTag "p"; EndTag "p"])
      with (dispatch (dispatch s (EndTag "p")) (EndTag "p")).
    rewrite !paragraphs_dispatch. cbn [dispatch closes_p].
    rewrite current_paragraph_endtag_p, H.
    change (String.eqb "p" "p") with true. cbn [andb].
    by rewrite <- (assoc_L (++)).
  - intros t1 t2 H1 H2 H%truthy_spec.
    change (feed s [EndTag t1; EndTag t2])
      with (dispatch (dispatch s (EndTag t1)) (EndTag t2)).
    rewrite !headings_dispatch. cbn [dispatch closes_heading].
    rewrite current_heading_endtag_heading by done.
    rewrite H, H1, H2. cbn [andb].
    by rewrite <- (assoc_L (++)).
Qed.

Lemma closing_tag_repeats_witness :
  paragraphs (feed (feed init [StartTag "p" []; Data " once "])
                [EndTag "p"; EndTag "p"]) = ["once"; "once"]
  ∧ headings (feed (feed init [StartTag "h1" []; Data "T"])
                [EndTag "h1"; EndTag "h2"]) = ["T"; "T"].
Proof.
  split.
  - apply (proj1 (closing_tag_repeats
                    (feed init [StartTag "p" []; Data " once "]))).
    discriminate.
  - apply (proj2 (closing_tag_repeats
                    (feed init [StartTag "h1" []; Data "T"])) "h1" "h2");
      [reflexivity | reflexivity | discriminate].
Defined.

Lemma closes_p_spec (e : event) : closes_p e = true ↔ e = EndTag "p".
Proof.
  destruct e as [tag attrs|tag|d]; simpl; [done| |done].
  rewrite String.eqb_eq. naive_solver.
Qed.

(** X3: paragraphs and headings are recorded by closing tags only.
    Callbacks without a [</p>] leave [paragraphs] as it is, however many
    [<p>] they open, and callbacks without a closing heading tag leave
    [headings] as it is. *)
Theorem nothing_recorded_without_closing_tag
    (evs : list event) (s : SimpleHTMLParser) :
  (EndTag "p" ∉ evs → paragraphs (feed s evs) = paragraphs s)
  ∧ ((∀ tag, is_heading_tag tag = true → EndTag tag ∉ evs) →
     headings (feed s evs) = headings s).
Proof.
  split.
  - revert s. induction evs as [|e evs IH]; intros s Hno; [done|].
    apply not_elem_of_cons in Hno as [Hne Hno].
    rewrite feed_cons, IH by done. rewrite paragraphs_dispatch.
    destruct (closes_p e) eqn:He; [|done].
    apply closes_p_spec in He. by subst.
  - revert s. induction evs as [|e evs IH]; intros s Hno; [done|].
    rewrite feed_cons, IH.
    + rewrite headings_dispatch.
      destruct (closes_heading e) eqn:He; [|done].
      destruct e as [|tag|]; try done. simpl in He.
      destruct (Hno tag He). by left.
    + intros tag Htag Hin. apply (Hno tag Htag). by right.
Qed.

Lemma nothing_recorded_without_closing_tag_witness :
  paragraphs (feed init [StartTag "p" []; Data "one"; StartTag "p" [];
                         Data "two"; EndTag "div"]) = [].
Proof.
  apply (proj1 (nothing_recorded_without_closing_tag
                  [StartTag "p" []; Data "one"; StartTag "p" [];
                   Data "two"; EndTag "div"] init)).
  intros H. repeat (apply elem_of_cons in H as [H|H]; [discriminate|]).
  by apply elem_of_nil in H.
Defined.

Lemma trimmed_lists_dispatch (s : SimpleHTMLParser) (e : event) :
  Forall trimmed (headings s) ∧ Forall trimmed (paragraphs s) →
  Forall trimmed (headings (dispatch s e))
  ∧ Forall trimmed (paragraphs (dispatch s e)).
Proof.
  intros [Hh Hp]. rewrite headings_dispatch, paragraphs_dispatch. split.
  - destruct (closes_heading e); [|done]. cbn [andb].
    destruct (PyStr.truthy (PyStr.strip (current_heading s))) eqn:E; [|done].
    apply Forall_app. split; [done|]. apply Forall_singleton.
    by apply trimmed_strip.
  - destruct (closes_p e); [|done]. cbn [andb].
    destruct (PyStr.truthy (PyStr.strip (current_paragraph s))) eqn:E; [|done].
    apply Forall_app. split; [done|]. apply Forall_singleton.
    by apply trimmed_strip.
Qed.

Lemma trimmed_lists_feed (evs : list event) (s : SimpleHTMLParser) :
  Forall trimmed (headings s) ∧ Forall trimmed (paragraphs s) →
  Forall trimmed (headings (feed s evs))
  ∧ Forall trimmed (paragraphs (feed s evs)).
Proof.
  revert s. induction evs as [|e evs IH]; intros s H; [done|].
  rewrite feed_cons. by apply IH, trimmed_lists_dispatch.
Qed.

(** X4: whatever the callbacks, well-formed document or not, every
    extracted paragraph is non-empty and has no white space left at
    either end, and so has the extracted heading when there is one: it is
    never the empty string. *)
Theorem entries_trimmed (evs : list event) (url timestamp : string) :
  Forall trimmed (data_paragraphs (make_data (feed init evs) url timestamp))
  ∧ (∀ h, data_heading (make_data (feed init evs) url timestamp) = Some h →
       trimmed h).
Proof.
  destruct (trimmed_lists_feed evs init) as [Hh Hp]; [by split|].
  cbn [make_data data_paragraphs data_heading]. split.
  - by apply Forall_take.
  - intros h E. destruct (headings (feed init evs)) as [|x l]; [done|].
    injection E as <-. by apply Forall_cons in Hh as [? _].
Qed.

Lemma entries_trimmed_witness :
  trimmed "Up top".
Proof.
  apply (proj2 (entries_trimmed
                  [EndTag "p"; StartTag "h2" []; Data "  Up "; Data "top ";
                   EndTag "h5"; EndTag "h1"] "u" "t")).
  reflexivity.
Defined.

(** One callback while a [<title>] is open. *)
Lemma dispatch_in_title (s : SimpleHTMLParser) (e : event) :
  in_title s = true → e ≠ EndTag "title" →
  in_title (dispatch s e) = true
  ∧ title (dispatch s e) = title s ++ text_of [e]
  ∧ (current_heading (dispatch s e) = current_heading s
     ∨ current_heading (dispatch s e) = "")
  ∧ (current_paragraph (dispatch s e) = current_paragraph s
     ∨ current_paragraph (dispatch s e) = "").
Proof.
  intros Hit Hne.
  destruct s as [t it hs ih ch lk ps ip cp md]. simpl in Hit. subst it.
  destruct e as [tag attrs|tag|d]; cbn [dispatch].
  - change (text_of [StartTag tag attrs]) with "". rewrite append_nil_r.
    unfold handle_starttag.
    repeat match goal with
           | |- context [if ?b then _ else _] => destruct b
           | |- context [match ?o with Some _ => _ | None => _ end] =>
               destruct o
           | |- context [let '(_, _) := ?x in _] => destruct x
           end; cbn; auto.
  - change (text_of [EndTag tag]) with "". rewrite append_nil_r.
    unfold handle_endtag.
    destruct (String.eqb_spec tag "title") as [->|_]; [done|].
    repeat match goal with
           | |- context [if ?b then _ else _] => destruct b
           end; cbn; auto.
  - rewrite text_of_data. unfold handle_data. cbn.
    repeat match goal with
           | |- context [match ?o with Some _ => _ | None => _ end] =>
               destruct o
           | |- context [if ?b then _ else _] => destruct b
           end; cbn; auto.
Qed.

(** A result list that has only grown by copies of the trimmed buffer
    [buf0], and what a closing tag makes of it while the buffer is
    [buf0] still or has been emptied. *)
Lemma stale_buffer_step (l0 l : list string) (buf0 buf : string)
    (closing : bool) :
  (∃ k, l = (l0 ++ replicate k (PyStr.strip buf0))%list
        ∧ (PyStr.strip buf0 = "" → k = 0)) →
  buf = buf0 ∨ buf = "" →
  ∃ k, (if closing && PyStr.truthy (PyStr.strip buf)
        then (l ++ [PyStr.strip buf])%list else l)
       = (l0 ++ replicate k (PyStr.strip buf0))%list
       ∧ (PyStr.strip buf0 = "" → k = 0).
Proof.
  intros (k & -> & Hk) Hbuf. destruct closing; cbn [andb]; [|by exists k].
  destruct Hbuf as [->| ->]; [|by exists k].
  destruct (PyStr.truthy (PyStr.strip buf0)) eqn:E; [|by exists k].
  exists (S k). split.
  - by rewrite <- (assoc_L (++)), replicate_S_end.
  - intros H. rewrite H in E. done.
Qed.

Lemma feed_in_title (evs : list event) (s0 : SimpleHTMLParser) :
  EndTag "title" ∉ evs →
  ∀ s', title_open_since s0 s' →
        title_open_since s0 (feed s' evs)
        ∧ title (feed s' evs) = title s' ++ text_of evs.
Proof.
  induction evs as [|e evs IH]; intros Hno s' Hinv.
  - split; [done|]. change (text_of []) with "". by rewrite append_nil_r.
  - apply not_elem_of_cons in Hno as [Hne Hno].
    destruct Hinv as (Hit & Hch & Hcp & Hhs & Hps).
    assert (e ≠ EndTag "title") as Hne' by (by intros ->).
    destruct (dispatch_in_title s' e Hit Hne') as (Hit' & Ht' & Hch' & Hcp').
    rewrite feed_cons.
    assert (title_open_since s0 (dispatch s' e)) as Hinv1.
    { split; [done|]. split; [|split; [|split]].
      - destruct Hch' as [->| ->]; auto.
      - destruct Hcp' as [->| ->]; auto.
      - rewrite headings_dispatch. by apply stale_buffer_step.
      - rewrite paragraphs_dispatch. by apply stale_buffer_step. }
    destruct (IH Hno _ Hinv1) as [Hinv' Ht2].
    split; [done|]. rewrite Ht2, Ht'.
    change (e :: evs) with ([e] ++ evs)%list.
    by rewrite text_of_app, append_assoc.
Qed.

(** X5: from any parser state, a [<title>] that is opened and not closed
    takes all the character data that follows and none of it reaches a
    heading or a paragraph: after the opening tag and any callbacks
    without a [</title>], the title has grown by the concatenation of all
    their character data, and [headings] and [paragraphs] have grown only
    by copies of the trimmed text that was in their buffers when the
    title opened, so not at all when those buffers were blank, as they
    are at the start of a page. *)
Theorem unclosed_title_swallows (s : SimpleHTMLParser) (attrs : list attr)
    (evs : list event) :
  EndTag "title" ∉ evs →
  let parser := feed s (StartTag "title" attrs :: evs) in
  title parser = title s ++ text_of evs
  ∧ in_title parser = true
  ∧ (∃ k, headings parser =
          (headings s ++ replicate k (PyStr.strip (current_heading s)))%list)
  ∧ (∃ k, paragraphs parser =
          (paragraphs s ++ replicate k (PyStr.strip (current_paragraph s)))%list)
  ∧ (PyStr.strip (current_heading s) = "" → headings parser = headings s)
  ∧ (PyStr.strip (current_paragraph s) = "" →
     paragraphs parser = paragraphs s).
Proof.
  intros Hno. cbn zeta. rewrite feed_cons.
  change (dispatch s (StartTag "title" attrs)) with (set_in_title true s).
  destruct (feed_in_title evs s Hno (set_in_title true s))
    as [(Hit & _ & _ & (kh & Hhs & Hkh) & (kp & Hps & Hkp)) Ht].
  { repeat split; auto; exists 0; by rewrite app_nil_r. }
  split; [done|]. split; [done|].
  split; [by exists kh|]. split; [by exists kp|]. split.
  - intros H. rewrite Hhs, (Hkh H). apply app_nil_r.
  - intros H. rewrite Hps, (Hkp H). apply app_nil_r.
Qed.

Lemma unclosed_title_swallows_witness :
  let s := feed init [StartTag "html" []; StartTag "p" []; Data "q"] in
  let parser :=
    feed s [StartTag "title" []; Data "tt"; EndTag "p"; Data "r";
            StartTag "h1" []; Data "H"; EndTag "h1"] in
  title parser = "ttrH" ∧ in_title parser = true ∧ headings parser = [].
Proof.
  intros s parser.
  assert (EndTag "title" ∉ [Data "tt"; EndTag "p"; Data "r";
                            StartTag "h1" []; Data "H"; EndTag "h1"]) as Hno.
  { intros H. repeat (apply elem_of_cons in H as [H|H]; [discriminate|]).
    by apply elem_of_nil in H. }
  pose proof (unclosed_title_swallows s [] _ Hno) as (Ht & Hit & _ & _ & Hh & _).
  split; [exact Ht|]. split; [exact Hit|]. exact (Hh eq_refl).
Defined.

(** ** More on links *)

(** X6: no callback removes a link or changes its [href]: an entry that
    is in [links] stays at its index, with the same [href], through any
    further callbacks; only its text can still change. *)
Theorem links_never_dropped (evs : list event) (s : SimpleHTMLParser)
    (i : nat) (e : link) :
  links s !! i = Some e →
  ∃ e', links (feed s evs) !! i = Some e' ∧ href e' = href e.
Proof.
  intros Hi.
  assert ((href <$> links (feed s evs)) !! i = Some (href e)) as H.
  { rewrite hrefs_feed. apply lookup_app_l_Some.
    by rewrite list_lookup_fmap, Hi. }
  rewrite list_lookup_fmap in H.
  destruct (links (feed s evs) !! i) as [e'|]; [|done].
  exists e'. split; [done|]. by injection H.
Qed.

Lemma links_never_dropped_witness :
  ∃ e', links (feed (feed init [StartTag "a" [("href", Some "/a")]])
                 [Data "A"; EndTag "a"; StartTag "a" [("href", Some "/b")];
                  Data "B"]) !! 0 = Some e'
        ∧ href e' = "/a".
Proof.
  apply (links_never_dropped
           [Data "A"; EndTag "a"; StartTag "a" [("href", Some "/b")]; Data "B"]
           (feed init [StartTag "a" [("href", Some "/a")]]) 0
           {| text := ""; href := "/a" |}).
  reflexivity.
Defined.

Lemma links_dispatch_blank (s : SimpleHTMLParser) (e : event) (x : link) :
  blank e → last (links s) = Some x → text x = "" →
  links (dispatch s e) = links s.
Proof.
  intros Hb Hlast Hx. destruct e as [tag attrs|tag|d]; cbn [dispatch].
  - rewrite links_handle_starttag. cbn [blank] in Hb. rewrite Hb.
    apply app_nil_r.
  - apply links_handle_endtag.
  - rewrite links_handle_data, Hlast, Hx. simpl. cbn [blank] in Hb.
    rewrite Hb.
    apply last_Some in Hlast as [l ->]. rewrite set_last_text_snoc.
    destruct x as [tx hx]. simpl in Hx. by subst.
Qed.

Lemma links_feed_blank (mid : list event) :
  ∀ (s : SimpleHTMLParser) (x : link),
    Forall blank mid → last (links s) = Some x → text x = "" →
    links (feed s mid) = links s.
Proof.
  induction mid as [|e mid IH]; intros s x Hmid Hlast Hx; [done|].
  apply Forall_cons in Hmid as [He Hmid]. rewrite feed_cons.
  pose proof (links_dispatch_blank s e x He Hlast Hx) as E.
  rewrite (IH (dispatch s e) x); [done|done| |done]. by rewrite E.
Qed.

(** X7: the text of a link is the first character data after its [a]
    tag that is not white space only, trimmed, wherever it stands: white
    space and any tags other than a further [a] with an [href] may come
    in between, and the closing [</a>] may be one of them. *)
Theorem link_text_first_nonblank (s : SimpleHTMLParser)
    (attrs : list attr) (h : string) (mid : list event) (d : string) :
  attribute "href" attrs = Some (Some h) → h ≠ "" →
  Forall blank mid →
  links (feed s (StartTag "a" attrs :: mid ++ [Data d])) =
  (links s ++ [ {| text := PyStr.strip d; href := h |} ])%list.
Proof.
  intros Hattr Hh Hmid.
  assert (links (dispatch s (StartTag "a" attrs)) =
          (links s ++ [ {| text := ""; href := h |} ])%list) as Hopen.
  { cbn [dispatch]. rewrite links_handle_starttag. unfold anchor_href.
    rewrite bool_decide_eq_true_2, Hattr, bool_decide_eq_false_2 by done.
    done. }
  rewrite feed_cons, feed_app.
  change (feed ?s0 [Data d]) with (handle_data d s0).
  rewrite links_handle_data.
  rewrite (links_feed_blank mid _ {| text := ""; href := h |}), Hopen;
    [|done| by rewrite Hopen, last_snoc |done].
  rewrite last_snoc. simpl. apply set_last_text_snoc.
Qed.

Lemma link_text_first_nonblank_witness :
  links (feed init
           (StartTag "a" [("href", Some "/x")]
            :: [Data "   "; StartTag "img" [("src", Some "i.png")];
                EndTag "a"; StartTag "a" []; StartTag "span" []]
            ++ [Data " outside "]))
  = [ {| text := "outside"; href := "/x" |} ].
Proof.
  apply (link_text_first_nonblank init [("href", Some "/x")] "/x"
           [Data "   "; StartTag "img" [("src", Some "i.png")];
            EndTag "a"; StartTag "a" []; StartTag "span" []] " outside ");
    [reflexivity | discriminate | ].
  repeat (apply Forall_cons; split; [reflexivity|]). apply Forall_nil_2.
Defined.

(** ** More on the orchestrator *)

Lemma scrape_website_success_witness :
  let w := World (fun _ => inr "<title>T</title><p> one </p>")
                 (fun _ => [StartTag "title" []; Data "T"; EndTag "title";
                            StartTag "p" []; Data " one "; EndTag "p"])
                 (fun n => if Nat.eqb n 0 then "12:00:00" else "12:00:01")
                 (fun _ => None)
                 (fun _ => None) (fun _ => false) in
  let scraped :=
    ScrapedData "http://example.org/" "12:00:01"
      {| data_title := "T"; data_url := "http://example.org/";
         data_heading := None; data_metaDescription := None;
         data_links := []; data_paragraphs := ["one"];
         data_timestamp := "12:00:00" |} in
  (scrape_website w "http://example.org/" (boot None)).1 = inr scraped
  ∧ scraped_data_json (scrape_website w "http://example.org/" (boot None)).2
    = Some scraped.
Proof.
  intros w scraped.
  rewrite (scrape_website_success w "http://example.org/"
             "<title>T</title><p> one </p>" (boot None)
             eq_refl eq_refl eq_refl).
  split; reflexivity.
Defined.

Lemma scrape_website_unexpected_error_witness :
  let w := World (fun _ => inl (Exn "TimeoutError" "The read operation timed out"
                                  false))
                 (fun _ => []) (fun _ => "12:00:00") (fun _ => None)
                 (fun _ => None) (fun _ => false) in
  (scrape_website w "http://example.org/" (boot None)).1 =
  inr (ErrorData "http://example.org/" "12:00:00"
         {| message := "The read operation timed out";
            type_name := "TimeoutError" |}).
Proof.
  intros w.
  rewrite (scrape_website_unexpected_error w "http://example.org/"
             (Exn "TimeoutError" "The read operation timed out" false)
             (boot None) eq_refl eq_refl eq_refl).
  reflexivity.
Defined.

Lemma handler_unfold (w : world) (url : string) (e : exn) (s : os) :
  handler w url e s =
  save_error w url e
    (OS (scraped_data_json s)
        (log s ++ [(ERROR, (if is_URLError e then "Error fetching URL: "
                            else "Unexpected error: ") ++ exn_str e)])
        (clock_reads s) (open_attempts s)).
Proof. unfold handler. by destruct (is_URLError e). Qed.

Lemma handler_written (w : world) (url : string) (e : exn) (s : os) :
  open_w w (open_attempts s) = None →
  (handler w url e s).1 = inr (error_data w url e (clock_reads s))
  ∧ scraped_data_json (handler w url e s).2
    = Some (error_data w url e (clock_reads s)).
Proof.
  intros Hopen. rewrite handler_unfold.
  by rewrite save_error_written by exact Hopen.
Qed.

Lemma handler_refused (w : world) (url : string) (e e' : exn) (s : os) :
  open_w w (open_attempts s) = Some e' →
  (handler w url e s).1 = inl (Exc e')
  ∧ scraped_data_json (handler w url e s).2 =
    if opened w (open_attempts s) then None else scraped_data_json s.
Proof.
  intros Hopen. rewrite handler_unfold.
  by rewrite (save_error_refused _ _ _ e') by exact Hopen.
Qed.

(** [scrape_website] when the fetch raises, when [feed] raises, and when
    the page is fetched and parsed but the first dump raises. *)
Lemma scrape_website_fetch_raises (w : world) (url : string) (e : exn)
    (s : os) :
  urlopen_read w url = inl e →
  scrape_website w url s =
  handler w url e
    (OS (scraped_data_json s) (log s ++ [(INFO, "Starting to fetch: " ++ url)])
        (clock_reads s) (open_attempts s)).
Proof.
  intros Hfetch. unfold scrape_website, try_except, fetch.
  unfold bind at 1. unfold logger at 1. unfold bind at 1.
  by rewrite Hfetch.
Qed.

Lemma scrape_website_feed_raised (w : world) (url html : string) (e : exn)
    (s : os) :
  urlopen_read w url = inr html →
  feed_raises w html = Some e →
  scrape_website w url s =
  handler w url e
    (OS (scraped_data_json s)
        (log s ++ [(INFO, "Starting to fetch: " ++ url);
                   (INFO, "Page fetched successfully, parsing content...")])
        (clock_reads s) (open_attempts s)).
Proof.
  intros Hfetch Hfeed.
  unfold scrape_website, try_except, bind, fetch, parser_feed, logger, ret.
  rewrite Hfetch. cbn. rewrite Hfeed. cbn.
  by rewrite <- !(assoc_L (++)).
Qed.

Lemma scrape_website_open_refused (w : world) (url html : string) (e : exn)
    (s : os) :
  urlopen_read w url = inr html →
  feed_raises w html = None →
  open_w w (open_attempts s) = Some e →
  scrape_website w url s =
  handler w url e
    (OS (if opened w (open_attempts s) then None else scraped_data_json s)
        (log s ++ [(INFO, "Starting to fetch: " ++ url);
                   (INFO, "Page fetched successfully, parsing content...")])
        (S (S (clock_reads s))) (S (open_attempts s))).
Proof.
  intros Hfetch Hfeed Hopen.
  unfold scrape_website, try_except, bind, fetch, parser_feed, logger, now,
    dump, ret.
  rewrite Hfetch. cbn. rewrite Hfeed. cbn. rewrite Hopen. cbn.
  by rewrite <- !(assoc_L (++)).
Qed.



(** X16: an exception that [HTMLParser.feed] raises on the fetched page
    is caught like one of the fetch: when the dump of the handler
    completes, [scrape_website] returns and stores a Failure record with
    the name of the exception's class and its [str()], stamped with the
    first reading of the clock; nothing of the page is kept. *)
Theorem scrape_website_feed_error
    (w : world) (url html : string) (e : exn) (s : os) :
  urlopen_read w url = inr html →
  feed_raises w html = Some e →
  open_w w (open_attempts s) = None →
  let failure :=
    ErrorData url (isoformat_now w (clock_reads s))
      {| message := exn_str e; type_name := exn_type e |} in
  (scrape_website w url s).1 = inr failure
  ∧ scraped_data_json (scrape_website w url s).2 = Some failure.
Proof.
  intros Hfetch Hfeed Hopen. cbn zeta.
  rewrite (scrape_website_feed_raised w url html e s Hfetch Hfeed).
  by apply handler_written.
Qed.

Lemma scrape_website_feed_error_witness :
  let w := World (fun _ => inr "<p>x</p><![x]>")
                 (fun _ => [StartTag "p" []; Data "x"; EndTag "p"])
                 (fun _ => "12:00:00") (fun _ => None)
                 (fun _ => Some (Exn "AssertionError" "unexpected '[' char in declaration" false))
                 (fun _ => false) in
  (scrape_website w "http://example.org/" (boot None)).1 =
  inr (ErrorData "http://example.org/" "12:00:00"
         {| message := "unexpected '[' char in declaration";
            type_name := "AssertionError" |}).
Proof.
  intros w.
  apply (scrape_website_feed_error w "http://example.org/" "<p>x</p><![x]>"
           (Exn "AssertionError" "unexpected '[' char in declaration" false)
           (boot None));
    reflexivity.
Defined.

(** X11: whatever the network, the parser, the clock and the file system
    do, a record that [scrape_website] returns is the record the
    snapshot file then holds in full, and its [source_url] is the URL
    given.  When [scrape_website] raises instead, the file holds what it
    held before or, a dump having been cut short after [open] emptied the
    file, no complete record; it holds what it held before whenever no
    failing dump gets past [open]. *)
Theorem returned_is_stored (w : world) (url : string) (s : os) :
  match (scrape_website w url s).1 with
  | inr r =>
      scraped_data_json (scrape_website w url s).2 = Some r
      ∧ result_source_url r = url
  | inl _ =>
      (scraped_data_json (scrape_website w url s).2 = scraped_data_json s
       ∨ scraped_data_json (scrape_website w url s).2 = None)
      ∧ ((∀ n, opened w n = false) →
         scraped_data_json (scrape_website w url s).2 = scraped_data_json s)
  end.
Proof.
  assert (∀ e s0,
    (scraped_data_json s0 = scraped_data_json s
     ∨ scraped_data_json s0 = None) →
    ((∀ n, opened w n = false) →
     scraped_data_json s0 = scraped_data_json s) →
    match (handler w url e s0).1 with
    | inr r => scraped_data_json (handler w url e s0).2 = Some r
               ∧ result_source_url r = url
    | inl _ =>
        (scraped_data_json (handler w url e s0).2 = scraped_data_json s
         ∨ scraped_data_json (handler w url e s0).2 = None)
        ∧ ((∀ n, opened w n = false) →
           scraped_data_json (handler w url e s0).2 = scraped_data_json s)
    end) as Hhandler.
  { intros e s0 Hs0 Hs0'.
    destruct (open_w w (open_attempts s0)) as [e'|] eqn:Hopen.
    - destruct (handler_refused w url e e' s0 Hopen) as [-> ->]. split.
      + destruct (opened w (open_attempts s0)); [by right|done].
      + intros Hno. rewrite Hno. by apply Hs0'.
    - destruct (handler_written w url e s0 Hopen) as [-> ->]. done. }
  destruct (urlopen_read w url) as [e|html] eqn:Hfetch.
  - rewrite (scrape_website_fetch_raises w url e s Hfetch).
    apply Hhandler; [by left|done].
  - destruct (feed_raises w html) as [e|] eqn:Hfeed.
    + rewrite (scrape_website_feed_raised w url html e s Hfetch Hfeed).
      apply Hhandler; [by left|done].
    + destruct (open_w w (open_attempts s)) as [e|] eqn:Hopen.
      * rewrite (scrape_website_open_refused w url html e s Hfetch Hfeed Hopen).
        apply Hhandler; cbn [scraped_data_json].
        -- destruct (opened w (open_attempts s)); [by right|by left].
        -- intros Hno. by rewrite Hno.
      * unfold scrape_website, try_except, bind, fetch, parser_feed, logger,
          now, dump, ret.
        rewrite Hfetch. cbn. rewrite Hfeed. cbn. by rewrite Hopen.
Qed.

Lemma returned_is_stored_witness :
  let old := ErrorData "http://old/" "11:00:00"
               {| message := "m"; type_name := "URLError" |} in
  let w := World (fun _ => inl (Exn "URLError" "<urlopen error timed out>" true))
                 (fun _ => []) (fun _ => "12:00:00")
                 (fun _ => Some (Exn "PermissionError" "[Errno 13]" false))
                 (fun _ => None) (fun _ => false) in
  scraped_data_json (scrape_website w "http://example.org/" (boot (Some old))).2
  = Some old.
Proof.
  intros old w.
  apply (proj2 (returned_is_stored w "http://example.org/" (boot (Some old)))).
  reflexivity.
Defined.

(** ** More on the exit status *)

(** X12: the process exits with status 0 exactly when a non-empty URL is
    resolved and [scrape_website] returns for it; in every other run it
    exits with status 1. *)
Theorem exit_status_zero_iff (w : world) (argv : list string)
    (environ : string -> option string) (s : os) :
  (exit_status (main w argv environ s).1 = 0%Z ↔
   ∃ url r s', url_to_scrape argv environ = Some url ∧ url ≠ ""
               ∧ scrape_website w url s = (inr r, s'))
  ∧ (exit_status (main w argv environ s).1 ≠ 0%Z →
     exit_status (main w argv environ s).1 = 1%Z).
Proof.
  split.
  - split.
    + destruct (url_to_scrape argv environ) as [url|] eqn:Hu.
      * destruct (PyStr.truthy url) eqn:Hurl.
        -- apply truthy_spec in Hurl.
           rewrite (main_with_url _ _ _ url) by done.
           pose proof (scrape_website_no_exit w url s) as Hno.
           destruct (scrape_website w url s) as [[[e|code]|r] s'] eqn:E;
             simpl in *.
           ++ done.
           ++ by destruct (Hno code).
           ++ intros _. by exists url, r, s'.
        -- rewrite main_no_url; [done|]. by rewrite Hu.
      * rewrite main_no_url; [done|]. by rewrite Hu.
    + intros (url & r & s' & Hu & Hne & Hrun).
      by rewrite (main_with_url _ _ _ url), Hrun.
  - intros Hne. by destruct (exit_status_main_cases w argv environ s).
Qed.

Lemma exit_status_zero_iff_witness :
  let w := World (fun _ => inl (Exn "URLError" "<urlopen error timed out>" true))
                 (fun _ => []) (fun _ => "12:00:00") (fun _ => None)
                 (fun _ => None) (fun _ => false) in
  exit_status (main w ["fetch_data.py"; ""]
                 (fun _ => Some "http://example.org/") (boot None)).1 = 1%Z.
Proof.
  intros w.
  apply (proj2 (exit_status_zero_iff w ["fetch_data.py"; ""]
                  (fun _ => Some "http://example.org/") (boot None))).
  discriminate.
Defined.

(** X13: a positional argument shuts [SCRAPE_URL] out.  With one given,
    the run is the same whatever the environment holds; and when it is
    the empty string the process exits with status 1 without reading the
    clock or touching the snapshot file, although [SCRAPE_URL] may hold a
    URL. *)
Theorem positional_argument_first (w : world) (argv : list string)
    (s : os) :
  (1 < length argv →
   ∀ environ environ', main w argv environ s = main w argv environ' s)
  ∧ (argv !! 1 = Some "" →
     ∀ environ,
       (main w argv environ s).1 = inl (SystemExit 1)
       ∧ scraped_data_json (main w argv environ s).2 = scraped_data_json s
       ∧ clock_reads (main w argv environ s).2 = clock_reads s
       ∧ open_attempts (main w argv environ s).2 = open_attempts s).
Proof.
  split.
  - intros Hlen environ environ'. unfold main, url_to_scrape.
    apply Nat.ltb_lt in Hlen. by rewrite Hlen.
  - intros Harg environ.
    assert (url_to_scrape argv environ = Some "") as Hu.
    { unfold url_to_scrape. apply lookup_lt_Some in Harg as Hlen.
      apply Nat.ltb_lt in Hlen. by rewrite Hlen. }
    unfold main. by rewrite Hu.
Qed.

Lemma positional_argument_first_witness :
  let w := World (fun _ => inr "") (fun _ => []) (fun _ => "12:00:00")
                 (fun _ => None)
                 (fun _ => None) (fun _ => false) in
  (main w ["fetch_data.py"; ""] (fun _ => Some "http://example.org/")
     (boot None)).1 = inl (SystemExit 1).
Proof.
  intros w.
  apply (proj2 (positional_argument_first w ["fetch_data.py"; ""] (boot None))
           eq_refl (fun _ => Some "http://example.org/")).
Defined.

(** ** server.py *)

(** X14: [get_scraped_data] never raises.  It returns the object loaded
    from the file when the file exists and loads, logging nothing and
    leaving the clock alone; in every other case it returns an error
    dict stamped with one reading of the clock: "No scraped data
    available" when the file does not exist (whatever opening it would
    do), "Invalid scraped data" with the [str()] of the exception for a
    [JSONDecodeError], "Failed to read scraped data" with it for any
    other exception. *)
Theorem get_scraped_data_never_raises {J : Type} (w : Server.world J)
    (s : Server.state) :
  ∃ d s',
    Server.get_scraped_data w s = (inr d, s')
    ∧ match d with
      | Server.Loaded v =>
          Server.path_exists w = true ∧ Server.open_load w = inr v ∧ s' = s
      | Server.ErrorDict error message timestamp =>
          timestamp = Server.isoformat_now w (Server.clock_reads s)
          ∧ Server.clock_reads s' = S (Server.clock_reads s)
          ∧ length (Server.log s') = S (length (Server.log s))
          ∧ ((Server.path_exists w = false
              ∧ error = "No scraped data available")
             ∨ (Server.path_exists w = true
                ∧ ∃ e, Server.open_load w = inl e
                       ∧ message = Server.exn_str e
                       ∧ error = if Server.is_JSONDecodeError e
                                 then "Invalid scraped data"
                                 else "Failed to read scraped data"))
      end.
Proof.
  unfold Server.get_scraped_data, Server.try_except.
  destruct (Server.path_exists w) eqn:Hex; cbn [negb].
  - destruct (Server.open_load w) as [e|v] eqn:Hload.
    + unfold Server.raise.
      destruct (Server.is_JSONDecodeError e) eqn:Hjson; cbn;
        eexists _, _; (split; [reflexivity|]); cbn;
        rewrite length_app; cbn;
        (split; [done|]); (split; [done|]); (split; [lia|]);
        right; (split; [done|]); exists e; by rewrite Hjson.
    + cbn. by exists (Server.Loaded v), s.
  - cbn. eexists _, _. split; [reflexivity|]. cbn.
    rewrite length_app. cbn.
    split; [done|]. split; [done|]. split; [lia|]. by left.
Qed.

(** ** What a run costs *)

Lemma save_error_effects (w : world) (url : string) (e : exn) (s : os) :
  open_attempts (save_error w url e s).2 = S (open_attempts s)
  ∧ clock_reads (save_error w url e s).2 = S (clock_reads s).
Proof.
  destruct (open_w w (open_attempts s)) as [e'|] eqn:Hopen.
  - by rewrite (save_error_refused w url e e' s Hopen).
  - by rewrite (save_error_written w url e s Hopen).
Qed.

Lemma handler_effects (w : world) (url : string) (e : exn) (s : os) :
  open_attempts (handler w url e s).2 = S (open_attempts s)
  ∧ clock_reads (handler w url e s).2 = S (clock_reads s).
Proof.
  rewrite handler_unfold.
  match goal with |- context [save_error w url e ?s0] =>
    exact (save_error_effects w url e s0) end.
Qed.

(** X15: every run of [scrape_website] attempts the dump into the
    snapshot file at least once and at most twice, the second time only
    after the page was fetched and parsed and the first attempt raised
    (in [open] or after it), and reads the clock at least once and at
    most three times. *)
Theorem scrape_website_effects (w : world) (url : string) (s : os) :
  let s' := (scrape_website w url s).2 in
  (S (open_attempts s) ≤ open_attempts s' ≤ S (S (open_attempts s)))%nat
  ∧ (S (clock_reads s) ≤ clock_reads s' ≤ S (S (S (clock_reads s))))%nat
  ∧ (open_attempts s' = S (S (open_attempts s)) →
     ∃ html e, urlopen_read w url = inr html
               ∧ feed_raises w html = None
               ∧ open_w w (open_attempts s) = Some e).
Proof.
  cbn zeta. destruct (urlopen_read w url) as [e|html] eqn:Hfetch.
  - rewrite (scrape_website_fetch_raises w url e s Hfetch).
    match goal with |- context [handler w url e ?s0] =>
      destruct (handler_effects w url e s0) as [-> ->] end.
    cbn. repeat split; lia.
  - destruct (feed_raises w html) as [e|] eqn:Hfeed.
    + rewrite (scrape_website_feed_raised w url html e s Hfetch Hfeed).
      match goal with |- context [handler w url e ?s0] =>
        destruct (handler_effects w url e s0) as [-> ->] end.
      cbn. repeat split; lia.
    + destruct (open_w w (open_attempts s)) as [e|] eqn:Hopen.
      * rewrite (scrape_website_open_refused w url html e s Hfetch Hfeed Hopen).
        match goal with |- context [handler w url e ?s0] =>
          destruct (handler_effects w url e s0) as [-> ->] end.
        cbn. repeat split; try lia. intros _. by exists html, e.
      * unfold scrape_website, try_except, bind, fetch, parser_feed, logger,
          now, dump, ret.
        rewrite Hfetch. cbn. rewrite Hfeed. cbn. rewrite Hopen. cbn.
        repeat split; lia.
Qed.

Lemma scrape_website_effects_witness :
  let w := World (fun _ => inr "") (fun _ => []) (fun _ => "12:00:00")
                 (fun _ => Some (Exn "PermissionError" "[Errno 13]" false))
                 (fun _ => None) (fun _ => true) in
  ∃ html e, urlopen_read w "http://example.org/" = inr html
            ∧ feed_raises w html = None
            ∧ open_w w 0 = Some e.
Proof.
  intros w.
  apply (proj2 (proj2 (scrape_website_effects w "http://example.org/"
                         (boot None)))).
  reflexivity.
Defined.
